(** * Sailing-boat simulation: force model, integrator and collision resolver

    A shallow embedding of the physics code of the repository:
    - [main.js] (two concatenated copies with the same physics) and
      [unnamed/part_000]: the wind-driven boat ([Forces], [Boat.update]);
    - [unnamed/part_001]: the thrust-driven boat with buoyancy that depends
      on depth, the floor clamp, the angular step and the sphere collision
      ([Boat.checkCollision], [Boat.handleCollision]).

    Number model.  A JavaScript number is read as a real number ([R]): the
    arithmetic of the source is kept operation by operation, rounding,
    overflow, infinities and NaN are left out.  No statement below depends
    on the value of a quotient whose divisor is zero.  Two behaviours hang
    on what doubles do and reals do not, the underflow of a square in
    [isAtRest] and the NaN that slips through the floor test of [update]:
    for them the same code is written a second time on IEEE 754 binary64
    (module [Binary64], on the primitive floats), and the statements about
    them are made there.

    three.js.  [Vector3], [Euler], [Quaternion] and [Object3D] belong to the
    library, not to the repository; the few methods the source calls are
    written out here after the library's documented behaviour.  The methods
    of [Vector3] work in place and return [this]: where the source keeps
    using such a value under another name (the [impulse] of
    [handleCollision]), the successive contents of the one object are named
    one by one. *)

From Stdlib Require Import Reals Lra Bool List String.
From Stdlib Require Floats.

Set Implicit Arguments.
Open Scope R_scope.

(** ** JavaScript completions *)

(** A method call either completes normally with a value or throws. The only
    exception the modelled code can raise is the [TypeError] of reading a
    property of [undefined] or [null]. *)
Inductive JsError : Type :=
| TypeError.

Inductive completion (A : Type) : Type :=
| Normal (a : A)
| Throw (e : JsError).

Arguments Normal {A} a.
Arguments Throw {A} e.

Definition bind {A B : Type} (c : completion A) (k : A -> completion B)
  : completion B :=
  match c with
  | Normal a => k a
  | Throw e => Throw e
  end.

(** Reading a property of a value that may still be [undefined]/[null]. *)
Definition deref {A : Type} (o : option A) : completion A :=
  match o with
  | Some a => Normal a
  | None => Throw TypeError
  end.

Notation "x <- c ;; k" := (bind c (fun x => k))
  (at level 61, c at next level, right associativity).

(** ** Comparisons of numbers as booleans *)

Definition Rltb (a b : R) : bool := if Rlt_dec a b then true else false.
Definition Rgtb (a b : R) : bool := if Rgt_dec a b then true else false.
Definition Reqb (a b : R) : bool := if Req_dec_T a b then true else false.

(** ** three.js: the part of the library the source uses *)

Module Vector3.

Record t : Type := mk { x : R; y : R; z : R }.

(** [new THREE.Vector3()] *)
Definition zero : t := mk 0 0 0.

Definition clone (v : t) : t := v.

Definition add (v w : t) : t := mk (x v + x w) (y v + y w) (z v + z w).

Definition sub (v w : t) : t := mk (x v - x w) (y v - y w) (z v - z w).

(** [target.subVectors(a, b)] overwrites the target with [a - b]. *)
Definition subVectors (a b : t) : t := mk (x a - x b) (y a - y b) (z a - z b).

Definition multiplyScalar (v : t) (s : R) : t := mk (x v * s) (y v * s) (z v * s).

(** three.js: [divideScalar(s) = multiplyScalar(1 / s)]. *)
Definition divideScalar (v : t) (s : R) : t := multiplyScalar v (1 / s).

Definition dot (v w : t) : R := x v * x w + y v * y w + z v * z w.

Definition length (v : t) : R := sqrt (x v * x v + y v * y v + z v * z v).

(** three.js: [normalize() = divideScalar(length() || 1)]. *)
Definition normalize (v : t) : t :=
  divideScalar v (if Reqb (length v) 0 then 1 else length v).

Definition distanceToSquared (v w : t) : R :=
  let dx := x v - x w in
  let dy := y v - y w in
  let dz := z v - z w in
  dx * dx + dy * dy + dz * dz.

Definition distanceTo (v w : t) : R := sqrt (distanceToSquared v w).

Definition setY (v : t) (ny : R) : t := mk (x v) ny (z v).

End Vector3.

Module Euler.

(** Euler angles, in the library's default order XYZ. *)
Record t : Type := mk { x : R; y : R; z : R }.

Definition setY (e : t) (ny : R) : t := mk (x e) ny (z e).

End Euler.

Module Quaternion.

Record t : Type := mk { x : R; y : R; z : R; w : R }.

(** three.js [Quaternion.setFromEuler], case ['XYZ']. *)
Definition setFromEuler (e : Euler.t) : t :=
  let c1 := cos (Euler.x e / 2) in
  let c2 := cos (Euler.y e / 2) in
  let c3 := cos (Euler.z e / 2) in
  let s1 := sin (Euler.x e / 2) in
  let s2 := sin (Euler.y e / 2) in
  let s3 := sin (Euler.z e / 2) in
  mk (s1 * c2 * c3 + c1 * s2 * s3)
     (c1 * s2 * c3 - s1 * c2 * s3)
     (c1 * c2 * s3 + s1 * s2 * c3)
     (c1 * c2 * c3 - s1 * s2 * s3).

End Quaternion.

(** three.js [Vector3.applyQuaternion]: [v + w * t + cross(q.xyz, t)] with
    [t = 2 * cross(q.xyz, v)]. *)
Definition applyQuaternion (v : Vector3.t) (q : Quaternion.t) : Vector3.t :=
  let vx := Vector3.x v in
  let vy := Vector3.y v in
  let vz := Vector3.z v in
  let qx := Quaternion.x q in
  let qy := Quaternion.y q in
  let qz := Quaternion.z q in
  let qw := Quaternion.w q in
  let tx := 2 * (qy * vz - qz * vy) in
  let ty := 2 * (qz * vx - qx * vz) in
  let tz := 2 * (qx * vy - qy * vx) in
  Vector3.mk (vx + qw * tx + qy * tz - qz * ty)
             (vy + qw * ty + qz * tx - qx * tz)
             (vz + qw * tz + qx * ty - qy * tx).

Module Object3D.

(** The loaded scene node ([gltf.scene]) or a mesh.  The library keeps
    [quaternion] in step with [rotation]; here it is computed from it. *)
Record t : Type := mk {
  position : Vector3.t;
  rotation : Euler.t;
  scale : Vector3.t
}.

Definition quaternion (o : t) : Quaternion.t :=
  Quaternion.setFromEuler (rotation o).

Definition setPosition (o : t) (p : Vector3.t) : t :=
  mk p (rotation o) (scale o).

Definition setRotationY (o : t) (ry : R) : t :=
  mk (position o) (Euler.setY (rotation o) ry) (scale o).

Definition setScale (o : t) (s : Vector3.t) : t :=
  mk (position o) (rotation o) s.

(** three.js [Object3D.getWorldDirection]: the normalised third column
    ([e[8]], [e[9]], [e[10]]) of the world matrix.  The node is a child of
    the scene root, which the source never moves, so the world matrix is
    the node's own [Matrix4.compose(position, quaternion, scale)]. *)
Definition getWorldDirection (o : t) : Vector3.t :=
  let q := quaternion o in
  let qx := Quaternion.x q in
  let qy := Quaternion.y q in
  let qz := Quaternion.z q in
  let qw := Quaternion.w q in
  let x2 := qx + qx in
  let y2 := qy + qy in
  let z2 := qz + qz in
  let xx := qx * x2 in
  let xz := qx * z2 in
  let yy := qy * y2 in
  let yz := qy * z2 in
  let wx := qw * x2 in
  let wy := qw * y2 in
  let sz := Vector3.z (scale o) in
  Vector3.normalize
    (Vector3.mk ((xz + wy) * sz) ((yz - wx) * sz) ((1 - (xx + yy)) * sz)).

End Object3D.

(** ** The thrust-driven boat and the sphere ([unnamed/part_001]) *)

Module ThrustModel.

(** [const g = 9.8;] *)
Definition g : R := 98 / 10.

(** The fields of [Boat].  [boat], [velocity] and [acceleration] are only
    assigned by the loader's callback: until the asset is there they are
    [undefined] ([None]). *)
Record Boat : Type := mkBoat {
  mass : R;
  volume : R;
  waterDensity : R;
  inertia : R;
  angularVelocity : R;
  torque : R;
  thrust : R;
  rotationSpeed : R;
  radius : R;
  collided : bool;
  boat : option Object3D.t;
  velocity : option Vector3.t;
  acceleration : option Vector3.t
}.

(** The fields of [Sphere]; [object] is its mesh.  The fields it shares by
    name with [Boat] carry the prefix [s] here. *)
Record Sphere : Type := mkSphere {
  sradius : R;
  smass : R;
  svelocity : Vector3.t;
  sacceleration : Vector3.t;
  object : Object3D.t
}.

(** [new Boat()], lines 14-34, up to the asynchronous load: the object the
    constructor leaves, and the call itself. *)
Definition newBoat : Boat :=
  let mass := 3000 in
  mkBoat mass (15 / 10) 1000
         ((1 / 12) * mass * (2 ^ 2 + 2 ^ 2))
         0 0 0 0 5 false None None None.

Definition constructor : completion Boat := Normal newBoat.

(** The callback given to [loader.load], run with the loaded [gltf.scene]. *)
Definition onLoad (b : Boat) (scene : Object3D.t) : Boat :=
  let o := Object3D.setScale scene (Vector3.mk (2 / 10) (2 / 10) (2 / 10)) in
  let o := Object3D.setPosition o (Vector3.mk (-10) (-4) (-10)) in
  mkBoat (mass b) (volume b) (waterDensity b) (inertia b)
         (angularVelocity b) (torque b) (thrust b) (rotationSpeed b)
         (radius b) (collided b)
         (Some o) (Some (Vector3.mk 0 0 0)) (Some (Vector3.mk 0 0 0)).

Definition setCollided (b : Boat) (c : bool) : Boat :=
  mkBoat (mass b) (volume b) (waterDensity b) (inertia b)
         (angularVelocity b) (torque b) (thrust b) (rotationSpeed b)
         (radius b) c (boat b) (velocity b) (acceleration b).

Definition setVelocity (b : Boat) (v : Vector3.t) : Boat :=
  mkBoat (mass b) (volume b) (waterDensity b) (inertia b)
         (angularVelocity b) (torque b) (thrust b) (rotationSpeed b)
         (radius b) (collided b) (boat b) (Some v) (acceleration b).

Definition setSphereVelocity (s : Sphere) (v : Vector3.t) : Sphere :=
  mkSphere (sradius s) (smass s) v (sacceleration s) (object s).

(** [const restitution = 0.7;] *)
Definition restitution : R := 7 / 10.

(** The locals of [handleCollision], lines 48-51. *)
Definition collisionNormal (pa pb : Vector3.t) : Vector3.t :=
  Vector3.normalize (Vector3.subVectors pa pb).

Definition velocityAlongNormal (pa pb va vb : Vector3.t) : R :=
  Vector3.dot (Vector3.subVectors va vb) (collisionNormal pa pb).

(** Line 57. *)
Definition impulseScalar (van ma mb : R) : R :=
  (- (1 + restitution) * van) / (1 / ma + 1 / mb).

(** [handleCollision(otherObject)], lines 47-62.  [normal.multiplyScalar],
    and both [impulse.divideScalar] calls, work on the one vector first
    named [normal]: [impulse0], [impulse1], [impulse2] are its contents
    after each of the three calls. *)
Definition handleCollision (b : Boat) (other : Sphere)
  : completion (Boat * Sphere) :=
  o <- deref (boat b) ;;
  let normal :=
    Vector3.normalize
      (Vector3.subVectors (Object3D.position o)
                          (Object3D.position (object other))) in
  va <- deref (velocity b) ;;
  let relativeVelocity := Vector3.subVectors va (svelocity other) in
  let velocityAlongNormal := Vector3.dot relativeVelocity normal in
  if Rgtb velocityAlongNormal 0 then Normal (b, other)
  else
    let impulseScalar :=
      (- (1 + restitution) * velocityAlongNormal)
      / (1 / mass b + 1 / smass other) in
    let impulse0 := Vector3.multiplyScalar normal impulseScalar in
    let impulse1 := Vector3.divideScalar impulse0 (mass b) in
    let va' := Vector3.add va impulse1 in
    let impulse2 := Vector3.divideScalar impulse1 (smass other) in
    let vb' := Vector3.sub (svelocity other) impulse2 in
    Normal (setVelocity b va', setSphereVelocity other vb').

(** [checkCollision(otherObject)], lines 36-45. *)
Definition checkCollision (b : Boat) (other : Sphere)
  : completion (Boat * Sphere) :=
  o <- deref (boat b) ;;
  let distance :=
    Vector3.distanceTo (Object3D.position o)
                       (Object3D.position (object other)) in
  let collisionDistance := radius b + 50 + sradius other in
  if Rltb distance collisionDistance
  then handleCollision (setCollided b true) other
  else Normal (setCollided b false, other).

(** *** [update(deltaTime)], lines 64-98 *)

(** Line 68: [Math.max(0, this.volume * (1 - this.boat.position.y / 2))]. *)
Definition submergedVolume (b : Boat) (o : Object3D.t) : R :=
  Rmax 0 (volume b * (1 - Vector3.y (Object3D.position o) / 2)).

(** Lines 67-73: the force sum. *)
Definition totalForce (b : Boat) (o : Object3D.t) (vel : Vector3.t)
  : Vector3.t :=
  let gravityForce := Vector3.mk 0 (- mass b * g) 0 in
  let buoyancyForce :=
    Vector3.mk 0 (waterDensity b * submergedVolume b o * g) 0 in
  let dragCoefficient := 1 / 10 in
  let dragForce :=
    Vector3.multiplyScalar (Vector3.clone vel)
                           (- dragCoefficient * Vector3.length vel) in
  let thrustForce :=
    applyQuaternion (Vector3.mk 0 0 (thrust b)) (Object3D.quaternion o) in
  Vector3.add
    (Vector3.add
       (Vector3.add (Vector3.add Vector3.zero gravityForce) buoyancyForce)
       dragForce)
    thrustForce.

Definition linearDamping : R := 98 / 100.

(** Lines 75-81: acceleration, velocity step, damping when idle. *)
Definition steppedVelocity (b : Boat) (acc vel : Vector3.t) (deltaTime : R)
  : Vector3.t :=
  let vel1 :=
    Vector3.add vel (Vector3.multiplyScalar (Vector3.clone acc) deltaTime) in
  if Reqb (thrust b) 0
  then Vector3.multiplyScalar vel1 linearDamping
  else vel1.

(** Line 83: the position before the floor test. *)
Definition steppedPosition (o : Object3D.t) (vel : Vector3.t) (deltaTime : R)
  : Vector3.t :=
  Vector3.add (Object3D.position o)
              (Vector3.multiplyScalar (Vector3.clone vel) deltaTime).

(** Lines 85-88: the floor. *)
Definition floorClamp (pos vel : Vector3.t) : Vector3.t * Vector3.t :=
  if Rltb (Vector3.y pos) (-4)
  then (Vector3.setY pos (-4), Vector3.setY vel 0)
  else (pos, vel).

Definition angularDampingFactor : R := 95 / 100.

Definition update (b : Boat) (deltaTime : R) : completion Boat :=
  match boat b with
  | None => Normal b
  | Some o =>
      vel <- deref (velocity b) ;;
      let total := totalForce b o vel in
      _ <- deref (acceleration b) ;;
      let acc := Vector3.divideScalar total (mass b) in
      let vel1 := steppedVelocity b acc vel deltaTime in
      let pos1 := steppedPosition o vel1 deltaTime in
      let (pos2, vel2) := floorClamp pos1 vel1 in
      let armLength := 1 in
      let torque' := thrust b * armLength * sin (rotationSpeed b) in
      let angularAcceleration := torque' / inertia b in
      let angularVelocity1 :=
        angularVelocity b + angularAcceleration * deltaTime in
      let angularVelocity2 := angularVelocity1 * angularDampingFactor in
      let o1 := Object3D.setPosition o pos2 in
      let o2 :=
        Object3D.setRotationY
          o1 (Euler.y (Object3D.rotation o1) + angularVelocity2 * deltaTime) in
      Normal (mkBoat (mass b) (volume b) (waterDensity b) (inertia b)
                     angularVelocity2 torque' (thrust b) (rotationSpeed b)
                     (radius b) (collided b)
                     (Some o2) (Some vel2) (Some acc))
  end.

(** [setMass(newMass)], lines 122-125. *)
Definition setMass (b : Boat) (newMass : R) : completion Boat :=
  Normal (mkBoat newMass (volume b) (waterDensity b)
                 ((1 / 12) * newMass * (2 ^ 2 + 2 ^ 2))
                 (angularVelocity b) (torque b) (thrust b) (rotationSpeed b)
                 (radius b) (collided b)
                 (boat b) (velocity b) (acceleration b)).

(** A body is [Unready] until the callback has run. *)
Definition Unready (b : Boat) : Prop :=
  boat b = None /\ velocity b = None /\ acceleration b = None.

End ThrustModel.

(** ** The wind-driven boat ([main.js]) *)

Module WindModel.

(** [const GRAVITY_ACCELERATION = 9.81;] *)
Definition GRAVITY_ACCELERATION : R := 981 / 100.

(** The two module-level variables [windDirection] and [sailAngle], which
    the key handlers write and the force code reads. *)
Record Environment : Type := mkEnvironment {
  windDirection : Vector3.t;
  sailAngle : R
}.

Definition initialEnvironment : Environment :=
  mkEnvironment (Vector3.mk 1 0 0) (PI / 2).

Record Forces : Type := mkForces {
  mass : R;
  volumeDisplaced : R;
  fluidDensity : R;
  gravity : Vector3.t;
  buoyancy : Vector3.t;
  dragCoefficient : R;
  windForce : Vector3.t
}.

(** [computeBuoyancy()] reads [fluidDensity] and [volumeDisplaced] of
    [this]; the constructor calls it once both are set. *)
Definition computeBuoyancyOf (fluidDensity volumeDisplaced : R) : Vector3.t :=
  Vector3.mk 0 (fluidDensity * volumeDisplaced * GRAVITY_ACCELERATION) 0.

Definition computeBuoyancy (f : Forces) : Vector3.t :=
  computeBuoyancyOf (fluidDensity f) (volumeDisplaced f).

(** [new Forces(mass, volumeDisplaced, fluidDensity, dragCoefficient = 0.1,
    windForce = new THREE.Vector3(0, 0, 0))], lines 15-23; an argument left
    out is [None]. *)
Definition constructor (mass volumeDisplaced fluidDensity : R)
           (dragCoefficient : option R) (windForce : option Vector3.t)
  : completion Forces :=
  Normal (mkForces mass volumeDisplaced fluidDensity
                   (Vector3.mk 0 (- GRAVITY_ACCELERATION * mass) 0)
                   (computeBuoyancyOf fluidDensity volumeDisplaced)
                   (match dragCoefficient with Some d => d | None => 1 / 10 end)
                   (match windForce with
                    | Some w => w
                    | None => Vector3.mk 0 0 0
                    end)).

Definition computeAirResistance (f : Forces) (velocity : Vector3.t)
  : Vector3.t :=
  Vector3.multiplyScalar (Vector3.clone velocity) (- dragCoefficient f).

Definition computeWaterResistance (f : Forces) (velocity : Vector3.t)
  : Vector3.t :=
  Vector3.multiplyScalar (Vector3.clone velocity) (- dragCoefficient f * 2).

(** Line 38: [Math.max(0, Math.min(sailAngle, Math.PI / 2))]. *)
Definition clampSailAngle (sailAngle : R) : R :=
  Rmax 0 (Rmin sailAngle (PI / 2)).

(** [computeWindForce(windDirection, sailAngle)], lines 37-42. *)
Definition computeWindForce (windDirection : Vector3.t) (sailAngle : R)
  : Vector3.t :=
  let sailAngle := clampSailAngle sailAngle in
  let windEffectiveness := Rabs (sin sailAngle) in
  Vector3.multiplyScalar (Vector3.clone windDirection) windEffectiveness.

(** [computeNetForce(velocity, windDirection, sailAngle)], lines 44-53. *)
Definition computeNetForce (f : Forces) (velocity windDirection : Vector3.t)
           (sailAngle : R) : Vector3.t :=
  let airResistance := computeAirResistance f velocity in
  let waterResistance := computeWaterResistance f velocity in
  let windForce := computeWindForce windDirection sailAngle in
  Vector3.add
    (Vector3.add
       (Vector3.add
          (Vector3.add (Vector3.add Vector3.zero (gravity f)) (buoyancy f))
          windForce)
       airResistance)
    waterResistance.

Definition computeAcceleration (f : Forces) (netForce : Vector3.t)
  : Vector3.t :=
  Vector3.divideScalar (Vector3.clone netForce) (mass f).

(** [isAtRest(velocity)], lines 59-62: the wind comes from the module-level
    variables, not from arguments. *)
Definition isAtRest (env : Environment) (f : Forces) (velocity : Vector3.t)
  : bool :=
  let netForce :=
    computeNetForce f velocity (windDirection env) (sailAngle env) in
  Reqb (Vector3.length netForce) 0 && Reqb (Vector3.length velocity) 0.

(** The fields of [Boat]; those it shares by name with [Forces] carry the
    prefix [b] here. *)
Record Boat : Type := mkBoat {
  bmass : R;
  bvolumeDisplaced : R;
  bfluidDensity : R;
  forces : Forces;
  velocity : Vector3.t;
  acceleration : Vector3.t;
  rotationSpeed : R;
  boat : option Object3D.t
}.

(** [new Boat()], up to the asynchronous load. *)
Definition newBoat : completion Boat :=
  let mass := 500 in
  let volumeDisplaced := 2 in
  let fluidDensity := 1000 in
  f <- constructor mass volumeDisplaced fluidDensity None None ;;
  Normal (mkBoat mass volumeDisplaced fluidDensity f
                 (Vector3.mk 0 0 0) (Vector3.mk 0 0 0) 0 None).

(** The callback given to [loader.load].  The first copy in [main.js] puts
    the node at (0, 0, 0), the second at (0, -10, 0): [start] is that
    position. *)
Definition onLoad (start : Vector3.t) (env : Environment) (b : Boat)
           (scene : Object3D.t) : Boat :=
  let o := Object3D.setScale scene (Vector3.mk 1 1 1) in
  let o := Object3D.setPosition o start in
  let o := Object3D.setRotationY o PI in
  let velocity' :=
    if isAtRest env (forces b) (velocity b)
    then Vector3.mk 0 0 0
    else velocity b in
  mkBoat (bmass b) (bvolumeDisplaced b) (bfluidDensity b) (forces b)
         velocity' (acceleration b) (rotationSpeed b) (Some o).

(** [update(deltaTime)], lines 94-114. *)
Definition update (env : Environment) (b : Boat) (deltaTime : R)
  : completion Boat :=
  match boat b with
  | Some o =>
      let netForce :=
        computeNetForce (forces b) (velocity b)
                        (windDirection env) (sailAngle env) in
      let acceleration' := computeAcceleration (forces b) netForce in
      let velocity' :=
        if negb (isAtRest env (forces b) (velocity b))
        then Vector3.add (velocity b)
                         (Vector3.multiplyScalar
                            (Vector3.clone acceleration') deltaTime)
        else velocity b in
      let direction := Object3D.getWorldDirection o in
      let direction :=
        Vector3.multiplyScalar direction
                               (Vector3.length velocity' * deltaTime) in
      let o1 :=
        Object3D.setPosition o (Vector3.add (Object3D.position o) direction) in
      let o2 :=
        Object3D.setRotationY
          o1 (Euler.y (Object3D.rotation o1) + rotationSpeed b * deltaTime) in
      Normal (mkBoat (bmass b) (bvolumeDisplaced b) (bfluidDensity b)
                     (forces b) velocity' acceleration' (rotationSpeed b)
                     (Some o2))
  | None => Normal b
  end.

End WindModel.

(** ** The wind-driven boat, cosine variant ([unnamed/part_000]) *)

(** The file repeats [main.js] but for [computeWindForce], which takes the
    cosine of the angle as it comes, and [update], which gets the wind as
    arguments (while [isAtRest] goes on reading the module-level variables).
    The records and the methods that are the same are those of [WindModel]. *)
Module WindModelCos.

Import WindModel.

(** [computeWindForce(windDirection, sailAngle)], part_000 lines 38-42. *)
Definition computeWindForce (windDirection : Vector3.t) (sailAngle : R)
  : Vector3.t :=
  let windEffectiveness := Rabs (cos sailAngle) in
  let effectiveWindForce :=
    Vector3.multiplyScalar (Vector3.clone windDirection) windEffectiveness in
  effectiveWindForce.

Definition computeNetForce (f : Forces) (velocity windDirection : Vector3.t)
           (sailAngle : R) : Vector3.t :=
  let airResistance := computeAirResistance f velocity in
  let waterResistance := computeWaterResistance f velocity in
  let windForce := computeWindForce windDirection sailAngle in
  Vector3.add
    (Vector3.add
       (Vector3.add
          (Vector3.add (Vector3.add Vector3.zero (gravity f)) (buoyancy f))
          windForce)
       airResistance)
    waterResistance.

Definition isAtRest (env : Environment) (f : Forces) (velocity : Vector3.t)
  : bool :=
  let netForce :=
    computeNetForce f velocity (windDirection env) (sailAngle env) in
  Reqb (Vector3.length netForce) 0 && Reqb (Vector3.length velocity) 0.

(** [update(deltaTime, windDirection, sailAngle)], part_000 lines 94-113. *)
Definition update (env : Environment) (b : Boat)
           (deltaTime : R) (windDirection : Vector3.t) (sailAngle : R)
  : completion Boat :=
  match boat b with
  | Some o =>
      let netForce :=
        computeNetForce (forces b) (velocity b) windDirection sailAngle in
      let acceleration' := computeAcceleration (forces b) netForce in
      let velocity' :=
        if negb (isAtRest env (forces b) (velocity b))
        then Vector3.add (velocity b)
                         (Vector3.multiplyScalar
                            (Vector3.clone acceleration') deltaTime)
        else velocity b in
      let direction := Object3D.getWorldDirection o in
      let direction :=
        Vector3.multiplyScalar direction
                               (Vector3.length velocity' * deltaTime) in
      let o1 :=
        Object3D.setPosition o (Vector3.add (Object3D.position o) direction) in
      let o2 :=
        Object3D.setRotationY
          o1 (Euler.y (Object3D.rotation o1) + rotationSpeed b * deltaTime) in
      Normal (mkBoat (bmass b) (bvolumeDisplaced b) (bfluidDensity b)
                     (forces b) velocity' acceleration' (rotationSpeed b)
                     (Some o2))
  | None => Normal b
  end.

End WindModelCos.

(** ** What the specification says, for comparison *)

Module Spec.

(** [clamp(x, lo, hi)] *)
Definition clamp (x lo hi : R) : R := Rmax lo (Rmin x hi).

(** Section 4.1: [baseVolume * clamp(1 - position.y / referenceDepth, 0, 1)],
    with the reference depth 2 of the source. *)
Definition submergedVolume (baseVolume positionY : R) : R :=
  baseVolume * clamp (1 - positionY / 2) 0 1.

(** Section 4.3, steps 5 and 6 of [resolve]: the velocities of [a] and [b]
    after an impulse along [normal]. *)
Definition resolve (normal va vb : Vector3.t) (ma mb restitution : R)
  : Vector3.t * Vector3.t :=
  let velocityAlongNormal :=
    Vector3.dot (Vector3.subVectors va vb) normal in
  let impulseScalar :=
    (- (1 + restitution) * velocityAlongNormal) / (1 / ma + 1 / mb) in
  let impulse := Vector3.multiplyScalar normal impulseScalar in
  (Vector3.add va (Vector3.divideScalar impulse ma),
   Vector3.sub vb (Vector3.divideScalar impulse mb)).

(** Total momentum of the pair, projected on [normal]. *)
Definition momentumAlong (normal va vb : Vector3.t) (ma mb : R) : R :=
  Vector3.dot
    (Vector3.add (Vector3.multiplyScalar va ma) (Vector3.multiplyScalar vb mb))
    normal.

End Spec.

(** ** Scenarios *)

Module Scenario.

Import ThrustModel.

Definition node (p : Vector3.t) : Object3D.t :=
  Object3D.mk p (Euler.mk 0 0 0) (Vector3.mk 1 1 1).

(** The sphere of the scene: [new Sphere(new THREE.Vector3(0, 0, 100), 20, 500)]. *)
Definition sphere : Sphere :=
  mkSphere 20 500 (Vector3.mk 0 0 0) (Vector3.mk 0 0 0)
           (node (Vector3.mk 0 0 100)).

(** A loaded boat with the mass set to 500, ten units from the sphere on
    the z axis, at velocity [vz] along that axis. *)
Definition boatAt (vz : R) : Boat :=
  mkBoat 500 (15 / 10) 1000 ((1 / 12) * 500 * (2 ^ 2 + 2 ^ 2))
         0 0 0 0 5 false
         (Some (node (Vector3.mk 0 0 110)))
         (Some (Vector3.mk 0 0 vz))
         (Some (Vector3.mk 0 0 0)).

(** Body A of the head-on scenario: closing in at 5 units per second. *)
Definition bodyA : Boat := boatAt (-5).

(** The same boat moving away from the sphere. *)
Definition leavingBoat : Boat := boatAt 5.

(** [handleCollision] called [n] times in a row on the same pair. *)
Fixpoint handleCollisionTimes (n : nat) (b : Boat) (s : Sphere)
  : completion (Boat * Sphere) :=
  match n with
  | O => Normal (b, s)
  | S k => p <- handleCollision b s ;; handleCollisionTimes k (fst p) (snd p)
  end.

(** The boat as the loader's callback leaves it: at the floor, y = -4. *)
Definition loadedNode : Object3D.t :=
  Object3D.mk (Vector3.mk (-10) (-4) (-10)) (Euler.mk 0 0 0)
              (Vector3.mk (2 / 10) (2 / 10) (2 / 10)).

Definition loadedBoat : Boat := onLoad newBoat (node (Vector3.mk 0 0 0)).

End Scenario.

Module WindScenario.

Import WindModel.

(** The [Forces] of the boat: [new Forces(500, 2, 1000)]. *)
Definition boatForces : Forces :=
  mkForces 500 2 1000
           (Vector3.mk 0 (- GRAVITY_ACCELERATION * 500) 0)
           (Vector3.mk 0 (1000 * 2 * GRAVITY_ACCELERATION) 0)
           (1 / 10) (Vector3.mk 0 0 0).

(** The loaded boat of the second copy of [main.js], at (0, -10, 0) and
    turned by pi about the vertical axis, after the key [w] has set its
    velocity to (0, 0, 100). *)
Definition sailingBoat : Boat :=
  mkBoat 500 2 1000 boatForces (Vector3.mk 0 0 100) (Vector3.mk 0 0 0) 0
         (Some (Object3D.mk (Vector3.mk 0 (-10) 0) (Euler.mk 0 PI 0)
                            (Vector3.mk 1 1 1))).

End WindScenario.

(** ** The rest of the scripts *)

(** three.js [Quaternion.setFromAxisAngle] and [Vector3.applyAxisAngle]. *)
Definition setFromAxisAngle (axis : Vector3.t) (angle : R) : Quaternion.t :=
  let halfAngle := angle / 2 in
  let s := sin halfAngle in
  Quaternion.mk (Vector3.x axis * s) (Vector3.y axis * s) (Vector3.z axis * s)
                (cos halfAngle).

Definition applyAxisAngle (v axis : Vector3.t) (angle : R) : Vector3.t :=
  applyQuaternion v (setFromAxisAngle axis angle).

(** The unit heading of a node turned by [a] about the vertical axis. *)
Definition heading (a : R) : Vector3.t := Vector3.mk (sin a) 0 (cos a).

(** *** [main.js]: the setters of [Boat], the key handlers, the frame *)

Module MainScript.

Import WindModel.

(** [setVelocity(speed)], lines 116-118: [this.velocity.set(0, 0, speed)]. *)
Definition setVelocity (b : Boat) (speed : R) : Boat :=
  mkBoat (bmass b) (bvolumeDisplaced b) (bfluidDensity b) (forces b)
         (Vector3.mk 0 0 speed) (acceleration b) (rotationSpeed b) (boat b).

(** [setRotationSpeed(speed)], lines 120-122. *)
Definition setRotationSpeed (b : Boat) (speed : R) : Boat :=
  mkBoat (bmass b) (bvolumeDisplaced b) (bfluidDensity b) (forces b)
         (velocity b) (acceleration b) speed (boat b).

(** The module-level variables the handlers touch: [windDirection] and
    [sailAngle] (the environment) and [boat] (here [theBoat]), which [init]
    assigns before it registers the handlers. *)
Record World : Type := mkWorld {
  environment : Environment;
  theBoat : Boat
}.

Definition setWind (w : World) (d : Vector3.t) : World :=
  mkWorld (mkEnvironment d (sailAngle (environment w))) (theBoat w).

Definition setSail (w : World) (a : R) : World :=
  mkWorld (mkEnvironment (windDirection (environment w)) a) (theBoat w).

Definition setBoat (w : World) (b : Boat) : World :=
  mkWorld (environment w) b.

(** [handleKeyDown(event)], lines 210-241, by [event.key]. *)
Definition handleKeyDown (w : World) (key : string) : World :=
  if String.eqb key "w" then setBoat w (setVelocity (theBoat w) 100)
  else if String.eqb key "s" then setBoat w (setVelocity (theBoat w) (-100))
  else if String.eqb key "a" then setBoat w (setRotationSpeed (theBoat w) 1)
  else if String.eqb key "d" then setBoat w (setRotationSpeed (theBoat w) (-1))
  else if String.eqb key "ArrowLeft" then
    setWind w (applyAxisAngle (windDirection (environment w))
                              (Vector3.mk 0 1 0) (PI / 18))
  else if String.eqb key "ArrowRight" then
    setWind w (applyAxisAngle (windDirection (environment w))
                              (Vector3.mk 0 1 0) (- PI / 18))
  else if String.eqb key "ArrowUp" then
    setSail w (Rmin (sailAngle (environment w) + PI / 18) (PI / 2))
  else if String.eqb key "ArrowDown" then
    setSail w (Rmax (sailAngle (environment w) - PI / 18) 0)
  else w.

(** [handleKeyUp(event)], lines 243-254. *)
Definition handleKeyUp (w : World) (key : string) : World :=
  if String.eqb key "w" || String.eqb key "s"
  then setBoat w (setVelocity (theBoat w) 0)
  else if String.eqb key "a" || String.eqb key "d"
  then setBoat w (setRotationSpeed (theBoat w) 0)
  else w.

(** The physics of [animate], lines 262-268: [if (boat) boat.update(deltaTime)]
    with [deltaTime] read from the clock. *)
Definition animate (w : World) (deltaTime : R) : completion World :=
  b <- update (environment w) (theBoat w) deltaTime ;;
  Normal (setBoat w b).

(** What can happen to the world once [init] has run. *)
Inductive Event : Type :=
| KeyDown (key : string)
| KeyUp (key : string)
| AnimationFrame (deltaTime : R).

Definition step (w : World) (e : Event) : completion World :=
  match e with
  | KeyDown key => Normal (handleKeyDown w key)
  | KeyUp key => Normal (handleKeyUp w key)
  | AnimationFrame deltaTime => animate w deltaTime
  end.

Fixpoint run (w : World) (events : list Event) : completion World :=
  match events with
  | nil => Normal w
  | e :: rest => w' <- step w e ;; run w' rest
  end.

End MainScript.

(** *** [unnamed/part_000]: the key handler and the frame that differ *)

Module MainScriptCos.

Import WindModel MainScript.

(** [handleKeyDown(event)], part_000 lines 209-236: as in [main.js], but
    [ArrowUp] lets the sail angle grow up to pi. *)
Definition handleKeyDown (w : World) (key : string) : World :=
  if String.eqb key "w" then setBoat w (setVelocity (theBoat w) 100)
  else if String.eqb key "s" then setBoat w (setVelocity (theBoat w) (-100))
  else if String.eqb key "a" then setBoat w (setRotationSpeed (theBoat w) 1)
  else if String.eqb key "d" then setBoat w (setRotationSpeed (theBoat w) (-1))
  else if String.eqb key "ArrowLeft" then
    setWind w (applyAxisAngle (windDirection (environment w))
                              (Vector3.mk 0 1 0) (PI / 18))
  else if String.eqb key "ArrowRight" then
    setWind w (applyAxisAngle (windDirection (environment w))
                              (Vector3.mk 0 1 0) (- PI / 18))
  else if String.eqb key "ArrowUp" then
    setSail w (Rmin (sailAngle (environment w) + PI / 18) PI)
  else if String.eqb key "ArrowDown" then
    setSail w (Rmax (sailAngle (environment w) - PI / 18) 0)
  else w.

(** The physics of [animate], part_000 lines 257-263: the time step is the
    constant 0.016 and the wind is passed to [update]. *)
Definition animate (w : World) : completion World :=
  let deltaTime := 16 / 1000 in
  b <- WindModelCos.update (environment w) (theBoat w) deltaTime
                           (windDirection (environment w))
                           (sailAngle (environment w)) ;;
  Normal (setBoat w b).

Inductive Event : Type :=
| KeyDown (key : string)
| KeyUp (key : string)
| AnimationFrame.

Definition step (w : World) (e : Event) : completion World :=
  match e with
  | KeyDown key => Normal (handleKeyDown w key)
  | KeyUp key => Normal (MainScript.handleKeyUp w key)
  | AnimationFrame => animate w
  end.

Fixpoint run (w : World) (events : list Event) : completion World :=
  match events with
  | nil => Normal w
  | e :: rest => w' <- step w e ;; run w' rest
  end.

End MainScriptCos.

(** *** [unnamed/part_001]: the sphere, [setVolume], the frame *)

Module ThrustScene.

Import ThrustModel.

(** [new Sphere(position, radius, mass)], lines 129-140. *)
Definition newSphere (position : Vector3.t) (radius mass : R) : Sphere :=
  mkSphere radius mass (Vector3.mk 0 0 0) (Vector3.mk 0 0 0)
           (Object3D.mk position (Euler.mk 0 0 0) (Vector3.mk 1 1 1)).

(** [Sphere.update(deltaTime)], lines 142-147. *)
Definition sphereUpdate (s : Sphere) (deltaTime : R) : Sphere :=
  let velocity' :=
    Vector3.add (svelocity s)
                (Vector3.multiplyScalar (Vector3.clone (sacceleration s))
                                        deltaTime) in
  let position' :=
    Vector3.add (Object3D.position (object s))
                (Vector3.multiplyScalar (Vector3.clone velocity') deltaTime) in
  mkSphere (sradius s) (smass s) velocity' (Vector3.mk 0 0 0)
           (Object3D.setPosition (object s) position').

(** [setVolume(newVolume)], lines 117-120.  The call throws when the asset
    is not there; that [this.volume] has been written by then is not kept. *)
Definition setVolume (b : Boat) (newVolume : R) : completion Boat :=
  o <- deref (boat b) ;;
  Normal (mkBoat (mass b) newVolume (waterDensity b) (inertia b)
                 (angularVelocity b) (torque b) (thrust b) (rotationSpeed b)
                 (radius b) (collided b)
                 (Some (Object3D.setScale
                          o (Vector3.mk newVolume newVolume newVolume)))
                 (velocity b) (acceleration b)).

(** The physics of [animate], lines 239-257: [boat.update(deltaTime)],
    [sphere.update(deltaTime)], [boat.checkCollision(sphere)]. *)
Definition animate (b : Boat) (s : Sphere) (deltaTime : R)
  : completion (Boat * Sphere) :=
  b1 <- update b deltaTime ;;
  let s1 := sphereUpdate s deltaTime in
  checkCollision b1 s1.

(** [animate] frame after frame, one time step per frame. *)
Fixpoint frames (b : Boat) (s : Sphere) (deltaTimes : list R)
  : completion (Boat * Sphere) :=
  match deltaTimes with
  | nil => Normal (b, s)
  | deltaTime :: rest =>
      p <- animate b s deltaTime ;; frames (fst p) (snd p) rest
  end.

(** [Sphere.update] step after step. *)
Fixpoint sphereUpdates (s : Sphere) (deltaTimes : list R) : Sphere :=
  match deltaTimes with
  | nil => s
  | deltaTime :: rest => sphereUpdates (sphereUpdate s deltaTime) rest
  end.

(** The asset is loaded: the three fields the callback assigns are there. *)
Definition Ready (b : Boat) : Prop :=
  exists o v a,
    boat b = Some o /\ velocity b = Some v /\ acceleration b = Some a.

End ThrustScene.

Module ThrustScenario.

Import ThrustModel.

(** The loaded boat of [new Boat()] lifted to y = -2, at rest, engine off. *)
Definition floatingNode : Object3D.t :=
  Object3D.mk (Vector3.mk (-10) (-2) (-10)) (Euler.mk 0 0 0)
              (Vector3.mk (2 / 10) (2 / 10) (2 / 10)).

Definition floatingBoat : Boat :=
  mkBoat 3000 (15 / 10) 1000 ((1 / 12) * 3000 * (2 ^ 2 + 2 ^ 2))
         0 0 0 0 5 false
         (Some floatingNode) (Some (Vector3.mk 0 0 0))
         (Some (Vector3.mk 0 0 0)).

(** The sum of the time steps of a run. *)
Definition total (deltaTimes : list R) : R := fold_right Rplus 0 deltaTimes.

(** A loaded boat under way: turned a quarter turn about the vertical axis,
    moving at (3, 0, 4), turning at 2 radians per second, engine at 50 and
    the steering input at 0.3. *)
Definition steeringNode : Object3D.t :=
  Object3D.mk (Vector3.mk 0 0 0) (Euler.mk 0 (PI / 2) 0)
              (Vector3.mk (2 / 10) (2 / 10) (2 / 10)).

Definition cruisingBoat : Boat :=
  mkBoat 3000 (15 / 10) 1000 ((1 / 12) * 3000 * (2 ^ 2 + 2 ^ 2))
         2 0 50 (3 / 10) 5 false
         (Some steeringNode) (Some (Vector3.mk 3 0 4))
         (Some (Vector3.mk 0 0 0)).

(** The same boat with the engine off. *)
Definition coastingBoat : Boat :=
  mkBoat 3000 (15 / 10) 1000 ((1 / 12) * 3000 * (2 ^ 2 + 2 ^ 2))
         2 0 0 (3 / 10) 5 false
         (Some steeringNode) (Some (Vector3.mk 3 0 4))
         (Some (Vector3.mk 0 0 0)).

End ThrustScenario.

(** ** The same code on IEEE 754 doubles *)

(** [Forces.isAtRest] with what it calls, and [Boat.update] of the
    thrust-driven boat with what it calls, operation by operation in the
    order JavaScript evaluates them, on binary64 with rounding to nearest.
    [Math.sin] and [Math.cos] are left to the engine by the language, which
    fixes them at zero only (sin(+-0) = +-0, cos(+-0) = 1): they are taken
    from a [Host]. *)
Module Binary64.

Import PrimFloat.
#[local] Open Scope float_scope.
#[local] Set Warnings "-inexact-float".

Record Host : Type := mkHost {
  Math_sin : float -> float;
  Math_cos : float -> float
}.

(** A host is right at zero when it gives what the language prescribes
    there. *)
Definition rightAtZero (h : Host) : Prop :=
  forall x, (x =? 0) = true -> Math_sin h x = x /\ Math_cos h x = 1.

(** The host that knows the prescribed values and nothing else. *)
Definition hostAtZero : Host :=
  mkHost (fun x => if x =? 0 then x else nan)
         (fun x => if x =? 0 then 1 else nan).

(** [Math.max] and [Math.min] of two numbers: NaN if either is NaN, and
    +0 above -0. *)
Definition Math_max (a b : float) : float :=
  if is_nan a || is_nan b then nan
  else if a <? b then b
  else if b <? a then a
  else if get_sign a then b else a.

Definition Math_min (a b : float) : float :=
  if is_nan a || is_nan b then nan
  else if a <? b then a
  else if b <? a then b
  else if get_sign a then a else b.

Definition Math_PI : float := 0x1.921fb54442d18p+1.

Module Vector3.

Record t : Type := mk { x : float; y : float; z : float }.

Definition zero : t := mk 0 0 0.

Definition clone (v : t) : t := v.

Definition add (v w : t) : t := mk (x v + x w) (y v + y w) (z v + z w).

Definition multiplyScalar (v : t) (s : float) : t :=
  mk (x v * s) (y v * s) (z v * s).

Definition divideScalar (v : t) (s : float) : t := multiplyScalar v (1 / s).

Definition length (v : t) : float := sqrt (x v * x v + y v * y v + z v * z v).

Definition setY (v : t) (ny : float) : t := mk (x v) ny (z v).

End Vector3.

Module Euler.

Record t : Type := mk { x : float; y : float; z : float }.

Definition setY (e : t) (ny : float) : t := mk (x e) ny (z e).

End Euler.

Module Quaternion.

Record t : Type := mk { x : float; y : float; z : float; w : float }.

Definition setFromEuler (h : Host) (e : Euler.t) : t :=
  let c1 := Math_cos h (Euler.x e / 2) in
  let c2 := Math_cos h (Euler.y e / 2) in
  let c3 := Math_cos h (Euler.z e / 2) in
  let s1 := Math_sin h (Euler.x e / 2) in
  let s2 := Math_sin h (Euler.y e / 2) in
  let s3 := Math_sin h (Euler.z e / 2) in
  mk (s1 * c2 * c3 + c1 * s2 * s3)
     (c1 * s2 * c3 - s1 * c2 * s3)
     (c1 * c2 * s3 + s1 * s2 * c3)
     (c1 * c2 * c3 - s1 * s2 * s3).

End Quaternion.

Definition applyQuaternion (v : Vector3.t) (q : Quaternion.t) : Vector3.t :=
  let vx := Vector3.x v in
  let vy := Vector3.y v in
  let vz := Vector3.z v in
  let qx := Quaternion.x q in
  let qy := Quaternion.y q in
  let qz := Quaternion.z q in
  let qw := Quaternion.w q in
  let tx := 2 * (qy * vz - qz * vy) in
  let ty := 2 * (qz * vx - qx * vz) in
  let tz := 2 * (qx * vy - qy * vx) in
  Vector3.mk (vx + qw * tx + qy * tz - qz * ty)
             (vy + qw * ty + qz * tx - qx * tz)
             (vz + qw * tz + qx * ty - qy * tx).

Module Object3D.

Record t : Type := mk {
  position : Vector3.t;
  rotation : Euler.t;
  scale : Vector3.t
}.

Definition quaternion (h : Host) (o : t) : Quaternion.t :=
  Quaternion.setFromEuler h (rotation o).

Definition setPosition (o : t) (p : Vector3.t) : t :=
  mk p (rotation o) (scale o).

Definition setRotationY (o : t) (ry : float) : t :=
  mk (position o) (Euler.setY (rotation o) ry) (scale o).

Definition setScale (o : t) (s : Vector3.t) : t :=
  mk (position o) (rotation o) s.

End Object3D.

(** *** [main.js]: [Forces] up to [isAtRest] *)

Module WindModel.

Definition GRAVITY_ACCELERATION : float := 9.81.

Record Environment : Type := mkEnvironment {
  windDirection : Vector3.t;
  sailAngle : float
}.

Record Forces : Type := mkForces {
  mass : float;
  volumeDisplaced : float;
  fluidDensity : float;
  gravity : Vector3.t;
  buoyancy : Vector3.t;
  dragCoefficient : float;
  windForce : Vector3.t
}.

Definition computeBuoyancyOf (fluidDensity volumeDisplaced : float)
  : Vector3.t :=
  Vector3.mk 0 (fluidDensity * volumeDisplaced * GRAVITY_ACCELERATION) 0.

(** [new Forces(...)], lines 15-23. *)
Definition constructor (mass volumeDisplaced fluidDensity : float)
           (dragCoefficient : option float) (windForce : option Vector3.t)
  : completion Forces :=
  Normal (mkForces mass volumeDisplaced fluidDensity
                   (Vector3.mk 0 (- GRAVITY_ACCELERATION * mass) 0)
                   (computeBuoyancyOf fluidDensity volumeDisplaced)
                   (match dragCoefficient with Some d => d | None => 0.1 end)
                   (match windForce with
                    | Some w => w
                    | None => Vector3.mk 0 0 0
                    end)).

Definition computeAirResistance (f : Forces) (velocity : Vector3.t)
  : Vector3.t :=
  Vector3.multiplyScalar (Vector3.clone velocity) (- dragCoefficient f).

Definition computeWaterResistance (f : Forces) (velocity : Vector3.t)
  : Vector3.t :=
  Vector3.multiplyScalar (Vector3.clone velocity) (- dragCoefficient f * 2).

Definition clampSailAngle (sailAngle : float) : float :=
  Math_max 0 (Math_min sailAngle (Math_PI / 2)).

Definition computeWindForce (h : Host) (windDirection : Vector3.t)
           (sailAngle : float) : Vector3.t :=
  let sailAngle := clampSailAngle sailAngle in
  let windEffectiveness := abs (Math_sin h sailAngle) in
  Vector3.multiplyScalar (Vector3.clone windDirection) windEffectiveness.

Definition computeNetForce (h : Host) (f : Forces)
           (velocity windDirection : Vector3.t) (sailAngle : float)
  : Vector3.t :=
  let airResistance := computeAirResistance f velocity in
  let waterResistance := computeWaterResistance f velocity in
  let windForce := computeWindForce h windDirection sailAngle in
  Vector3.add
    (Vector3.add
       (Vector3.add
          (Vector3.add (Vector3.add Vector3.zero (gravity f)) (buoyancy f))
          windForce)
       airResistance)
    waterResistance.

(** [isAtRest(velocity)], lines 59-62. *)
Definition isAtRest (h : Host) (env : Environment) (f : Forces)
           (velocity : Vector3.t) : bool :=
  let netForce :=
    computeNetForce h f velocity (windDirection env) (sailAngle env) in
  (Vector3.length netForce =? 0) && (Vector3.length velocity =? 0).

(** A body that weighs what it displaces, [new Forces(2000, 2, 1000)], with
    the default wind (1, 0, 0) and the sail brought down to angle 0, moving
    at 1e-200 along x. *)
Definition neutralForces : Forces :=
  mkForces 2000 2 1000
           (Vector3.mk 0 (- GRAVITY_ACCELERATION * 2000) 0)
           (Vector3.mk 0 (1000 * 2 * GRAVITY_ACCELERATION) 0)
           0.1 (Vector3.mk 0 0 0).

Definition calm : Environment := mkEnvironment (Vector3.mk 1 0 0) 0.

Definition creeping : Vector3.t := Vector3.mk 1e-200 0 0.

End WindModel.

(** *** [unnamed/part_001]: [Boat] up to [update] *)

Module ThrustModel.

Definition g : float := 9.8.

Record Boat : Type := mkBoat {
  mass : float;
  volume : float;
  waterDensity : float;
  inertia : float;
  angularVelocity : float;
  torque : float;
  thrust : float;
  rotationSpeed : float;
  radius : float;
  collided : bool;
  boat : option Object3D.t;
  velocity : option Vector3.t;
  acceleration : option Vector3.t
}.

(** [new Boat()], lines 14-34; [Math.pow(2, 2)] is 4. *)
Definition newBoat : Boat :=
  let mass := 3000 in
  mkBoat mass 1.5 1000 ((1 / 12) * mass * (4 + 4))
         0 0 0 0 5 false None None None.

Definition onLoad (b : Boat) (scene : Object3D.t) : Boat :=
  let o := Object3D.setScale scene (Vector3.mk 0.2 0.2 0.2) in
  let o := Object3D.setPosition o (Vector3.mk (-10) (-4) (-10)) in
  mkBoat (mass b) (volume b) (waterDensity b) (inertia b)
         (angularVelocity b) (torque b) (thrust b) (rotationSpeed b)
         (radius b) (collided b)
         (Some o) (Some (Vector3.mk 0 0 0)) (Some (Vector3.mk 0 0 0)).

Definition submergedVolume (b : Boat) (o : Object3D.t) : float :=
  Math_max 0 (volume b * (1 - Vector3.y (Object3D.position o) / 2)).

Definition totalForce (h : Host) (b : Boat) (o : Object3D.t)
           (vel : Vector3.t) : Vector3.t :=
  let gravityForce := Vector3.mk 0 (- mass b * g) 0 in
  let buoyancyForce :=
    Vector3.mk 0 (waterDensity b * submergedVolume b o * g) 0 in
  let dragCoefficient := 0.1 in
  let dragForce :=
    Vector3.multiplyScalar (Vector3.clone vel)
                           (- dragCoefficient * Vector3.length vel) in
  let thrustForce :=
    applyQuaternion (Vector3.mk 0 0 (thrust b)) (Object3D.quaternion h o) in
  Vector3.add
    (Vector3.add
       (Vector3.add (Vector3.add Vector3.zero gravityForce) buoyancyForce)
       dragForce)
    thrustForce.

Definition linearDamping : float := 0.98.

Definition steppedVelocity (b : Boat) (acc vel : Vector3.t)
           (deltaTime : float) : Vector3.t :=
  let vel1 :=
    Vector3.add vel (Vector3.multiplyScalar (Vector3.clone acc) deltaTime) in
  if thrust b =? 0
  then Vector3.multiplyScalar vel1 linearDamping
  else vel1.

Definition steppedPosition (o : Object3D.t) (vel : Vector3.t)
           (deltaTime : float) : Vector3.t :=
  Vector3.add (Object3D.position o)
              (Vector3.multiplyScalar (Vector3.clone vel) deltaTime).

(** Lines 85-88: [if (this.boat.position.y < -4) { ... }]. *)
Definition floorClamp (pos vel : Vector3.t) : Vector3.t * Vector3.t :=
  if Vector3.y pos <? -4
  then (Vector3.setY pos (-4), Vector3.setY vel 0)
  else (pos, vel).

Definition angularDampingFactor : float := 0.95.

(** [update(deltaTime)], lines 64-98. *)
Definition update (h : Host) (b : Boat) (deltaTime : float)
  : completion Boat :=
  match boat b with
  | None => Normal b
  | Some o =>
      vel <- deref (velocity b) ;;
      let total := totalForce h b o vel in
      _ <- deref (acceleration b) ;;
      let acc := Vector3.divideScalar total (mass b) in
      let vel1 := steppedVelocity b acc vel deltaTime in
      let pos1 := steppedPosition o vel1 deltaTime in
      let (pos2, vel2) := floorClamp pos1 vel1 in
      let armLength := 1 in
      let torque' := thrust b * armLength * Math_sin h (rotationSpeed b) in
      let angularAcceleration := torque' / inertia b in
      let angularVelocity1 :=
        angularVelocity b + angularAcceleration * deltaTime in
      let angularVelocity2 := angularVelocity1 * angularDampingFactor in
      let o1 := Object3D.setPosition o pos2 in
      let o2 :=
        Object3D.setRotationY
          o1 (Euler.y (Object3D.rotation o1) + angularVelocity2 * deltaTime) in
      Normal (mkBoat (mass b) (volume b) (waterDensity b) (inertia b)
                     angularVelocity2 torque' (thrust b) (rotationSpeed b)
                     (radius b) (collided b)
                     (Some o2) (Some vel2) (Some acc))
  end.

(** [setMass], [setVolume] and the slider callback [boat.thrust = value]. *)
Definition setMass (b : Boat) (newMass : float) : completion Boat :=
  Normal (mkBoat newMass (volume b) (waterDensity b)
                 ((1 / 12) * newMass * (4 + 4))
                 (angularVelocity b) (torque b) (thrust b) (rotationSpeed b)
                 (radius b) (collided b)
                 (boat b) (velocity b) (acceleration b)).

Definition setVolume (b : Boat) (newVolume : float) : completion Boat :=
  o <- deref (boat b) ;;
  Normal (mkBoat (mass b) newVolume (waterDensity b) (inertia b)
                 (angularVelocity b) (torque b) (thrust b) (rotationSpeed b)
                 (radius b) (collided b)
                 (Some (Object3D.setScale
                          o (Vector3.mk newVolume newVolume newVolume)))
                 (velocity b) (acceleration b)).

Definition setThrust (b : Boat) (value : float) : Boat :=
  mkBoat (mass b) (volume b) (waterDensity b) (inertia b)
         (angularVelocity b) (torque b) value (rotationSpeed b)
         (radius b) (collided b) (boat b) (velocity b) (acceleration b).

(** [update] step after step. *)
Fixpoint updates (h : Host) (b : Boat) (deltaTimes : list float)
  : completion Boat :=
  match deltaTimes with
  | nil => Normal b
  | deltaTime :: rest => b' <- update h b deltaTime ;; updates h b' rest
  end.

(** The boat is loaded, not turned about any axis, and not steered: the
    host is then asked for sines and cosines of zero only. *)
Definition straight (b : Boat) : bool :=
  match boat b with
  | Some o =>
      (Euler.x (Object3D.rotation o) =? 0)
      && (Euler.y (Object3D.rotation o) =? 0)
      && (Euler.z (Object3D.rotation o) =? 0)
      && (rotationSpeed b =? 0)
  | None => false
  end.

(** Every step of the run starts from a [straight] boat. *)
Fixpoint straightRun (b : Boat) (deltaTimes : list float) : bool :=
  match deltaTimes with
  | nil => true
  | deltaTime :: rest =>
      straight b
      && match update hostAtZero b deltaTime with
         | Normal b' => straightRun b' rest
         | Throw _ => false
         end
  end.

(** The loaded model as the loader hands it over. *)
Definition scene : Object3D.t :=
  Object3D.mk (Vector3.mk 0 0 0) (Euler.mk 0 0 0) (Vector3.mk 1 1 1).

Definition loadedBoat : Boat := onLoad newBoat scene.

Definition loadedNode : Object3D.t :=
  Object3D.mk (Vector3.mk (-10) (-4) (-10)) (Euler.mk 0 0 0)
              (Vector3.mk 0.2 0.2 0.2).

(** The loaded boat, engine off, falling at 100 units per second. *)
Definition sinkingBoat : Boat :=
  mkBoat 3000 1.5 1000 ((1 / 12) * 3000 * (4 + 4)) 0 0 0 0 5 false
         (Some loadedNode) (Some (Vector3.mk 0 (-100) 0))
         (Some (Vector3.mk 0 0 0)).

(** The loaded boat after the sliders have set mass 500, volume 5 and
    thrust 500. *)
Definition tunedBoat : Boat :=
  let o := Object3D.mk (Vector3.mk (-10) (-4) (-10)) (Euler.mk 0 0 0)
                       (Vector3.mk 5 5 5) in
  mkBoat 500 5 1000 ((1 / 12) * 500 * (4 + 4)) 0 0 500 0 5 false
         (Some o) (Some (Vector3.mk 0 0 0)) (Some (Vector3.mk 0 0 0)).

(** One frame after an hour in the background, then twelve frames of
    16 ms. *)
Definition lateFrames : list float := 3600 :: repeat 0.016 12.

End ThrustModel.

End Binary64.

(** * Properties *)

(** ** Comparisons *)

Lemma Rltb_true (a b : R) : Rltb a b = true <-> a < b.
Proof. unfold Rltb; destruct (Rlt_dec a b); split; intros; auto; discriminate. Qed.

Lemma Rltb_false (a b : R) : Rltb a b = false <-> b <= a.
Proof.
  unfold Rltb; destruct (Rlt_dec a b); split; intros; auto; try discriminate; lra.
Qed.

Lemma Rgtb_true (a b : R) : Rgtb a b = true <-> a > b.
Proof. unfold Rgtb; destruct (Rgt_dec a b); split; intros; auto; discriminate. Qed.

Lemma Rgtb_false (a b : R) : Rgtb a b = false <-> a <= b.
Proof.
  unfold Rgtb; destruct (Rgt_dec a b); split; intros; auto; try discriminate; lra.
Qed.

Lemma Reqb_true (a b : R) : Reqb a b = true <-> a = b.
Proof. unfold Reqb; destruct (Req_dec_T a b); split; intros; auto; discriminate. Qed.

Lemma Reqb_false (a b : R) : Reqb a b = false <-> a <> b.
Proof.
  unfold Reqb; destruct (Req_dec_T a b); split; intros; auto; try discriminate.
  contradiction.
Qed.


(** ** Vectors *)

Lemma length_zero_iff (v : Vector3.t) :
  Vector3.length v = 0 <-> v = Vector3.mk 0 0 0.
Proof.
  destruct v as [a b c]; unfold Vector3.length; simpl; split.
  - intros H. apply sqrt_eq_0 in H; [| nra].
    assert (a = 0) by nra. assert (b = 0) by nra. assert (c = 0) by nra.
    subst; reflexivity.
  - intros H; injection H as -> -> ->.
    replace (0 * 0 + 0 * 0 + 0 * 0) with 0 by ring. apply sqrt_0.
Qed.

Lemma length_z_axis (d : R) : 0 <= d -> Vector3.length (Vector3.mk 0 0 d) = d.
Proof.
  intros Hd. unfold Vector3.length; simpl.
  replace (0 * 0 + 0 * 0 + d * d) with (d * d) by ring.
  apply sqrt_square; assumption.
Qed.

Lemma normalize_z_axis (d : R) :
  0 < d -> Vector3.normalize (Vector3.mk 0 0 d) = Vector3.mk 0 0 1.
Proof.
  intros Hd. unfold Vector3.normalize.
  rewrite length_z_axis by lra.
  destruct (Reqb d 0) eqn:E.
  - apply Reqb_true in E; lra.
  - unfold Vector3.divideScalar, Vector3.multiplyScalar; simpl.
    f_equal; field; lra.
Qed.

(** ** The collision resolver ([unnamed/part_001]) *)

Module CollisionFacts.

Import ThrustModel.

(** What [handleCollision] does to a loaded pair that is not separating:
    the boat gets the impulse over its mass, the sphere gets that same
    quotient divided once more, by the sphere's mass. *)
Lemma handleCollision_closing (b : Boat) (other : Sphere)
      (o : Object3D.t) (va : Vector3.t) :
  boat b = Some o ->
  velocity b = Some va ->
  let pa := Object3D.position o in
  let pb := Object3D.position (object other) in
  let van := velocityAlongNormal pa pb va (svelocity other) in
  van <= 0 ->
  let impulse :=
    Vector3.multiplyScalar (collisionNormal pa pb)
                           (impulseScalar van (mass b) (smass other)) in
  handleCollision b other =
  Normal
    (setVelocity b (Vector3.add va (Vector3.divideScalar impulse (mass b))),
     setSphereVelocity
       other
       (Vector3.sub (svelocity other)
                    (Vector3.divideScalar
                       (Vector3.divideScalar impulse (mass b))
                       (smass other)))).
Proof.
  intros Hb Hv pa pb van Hvan impulse.
  unfold handleCollision. rewrite Hb, Hv. cbn [deref bind].
  fold pa pb.
  change (Vector3.normalize (Vector3.subVectors pa pb))
    with (collisionNormal pa pb).
  change (Vector3.dot (Vector3.subVectors va (svelocity other))
                      (collisionNormal pa pb)) with van.
  destruct (Rgtb van 0) eqn:E.
  - apply Rgtb_true in E. lra.
  - reflexivity.
Qed.

(** A loaded pair that is separating is returned as it came. *)
Lemma handleCollision_separating (b : Boat) (other : Sphere)
      (o : Object3D.t) (va : Vector3.t) :
  boat b = Some o ->
  velocity b = Some va ->
  velocityAlongNormal (Object3D.position o)
                      (Object3D.position (object other))
                      va (svelocity other) > 0 ->
  handleCollision b other = Normal (b, other).
Proof.
  intros Hb Hv Hvan.
  unfold handleCollision. rewrite Hb, Hv. cbn [deref bind].
  unfold velocityAlongNormal, collisionNormal in Hvan.
  apply Rgtb_true in Hvan. rewrite Hvan. reflexivity.
Qed.

(** The pair of the scenarios: normal and relative velocity. *)
Lemma scenario_normal :
  collisionNormal (Vector3.mk 0 0 110) (Vector3.mk 0 0 100) = Vector3.mk 0 0 1.
Proof.
  unfold collisionNormal, Vector3.subVectors; simpl.
  replace (0 - 0) with 0 by ring.
  replace (110 - 100) with 10 by ring.
  apply normalize_z_axis; lra.
Qed.

Lemma scenario_velocityAlongNormal (vz : R) :
  velocityAlongNormal (Vector3.mk 0 0 110) (Vector3.mk 0 0 100)
                      (Vector3.mk 0 0 vz) (Vector3.mk 0 0 0) = vz.
Proof.
  unfold velocityAlongNormal. rewrite scenario_normal.
  unfold Vector3.dot, Vector3.subVectors; simpl. ring.
Qed.

End CollisionFacts.

Module HeadOn.

Import ThrustModel Scenario.

Lemma head_on_impulseScalar : impulseScalar (-5) 500 500 = 2125.
Proof. unfold impulseScalar, restitution. field. Qed.

Lemma head_on_boat_velocity :
  Vector3.add (Vector3.mk 0 0 (-5))
              (Vector3.divideScalar
                 (Vector3.multiplyScalar (Vector3.mk 0 0 1) 2125) 500)
  = Vector3.mk 0 0 (- 3 / 4).
Proof.
  unfold Vector3.add, Vector3.divideScalar, Vector3.multiplyScalar.
  cbn [Vector3.x Vector3.y Vector3.z]. f_equal; field.
Qed.

Lemma head_on_sphere_velocity :
  Vector3.sub (Vector3.mk 0 0 0)
              (Vector3.divideScalar
                 (Vector3.divideScalar
                    (Vector3.multiplyScalar (Vector3.mk 0 0 1) 2125) 500)
                 500)
  = Vector3.mk 0 0 (- 17 / 2000).
Proof.
  unfold Vector3.sub, Vector3.divideScalar, Vector3.multiplyScalar.
  cbn [Vector3.x Vector3.y Vector3.z]. f_equal; field.
Qed.

(** The head-on pair evaluated: the boat leaves at -3/4, the sphere at
    -17/2000. *)
Lemma head_on_result :
  handleCollision bodyA sphere =
  Normal (setVelocity bodyA (Vector3.mk 0 0 (- 3 / 4)),
          setSphereVelocity sphere (Vector3.mk 0 0 (- 17 / 2000))).
Proof.
  rewrite (@CollisionFacts.handleCollision_closing
             bodyA sphere (node (Vector3.mk 0 0 110)) (Vector3.mk 0 0 (-5)));
    try reflexivity.
  - cbn [Object3D.position node object sphere svelocity smass mass bodyA boatAt].
    rewrite CollisionFacts.scenario_velocityAlongNormal,
            CollisionFacts.scenario_normal, head_on_impulseScalar,
            head_on_boat_velocity, head_on_sphere_velocity.
    reflexivity.
  - cbn [Object3D.position node object sphere svelocity].
    rewrite CollisionFacts.scenario_velocityAlongNormal. lra.
Qed.

(** The two bodies are ten units apart, well inside the collision distance
    of 75, so [checkCollision] reaches [handleCollision] on them. *)
Lemma head_on_checkCollision :
  checkCollision bodyA sphere =
  Normal (setVelocity (setCollided bodyA true) (Vector3.mk 0 0 (- 3 / 4)),
          setSphereVelocity sphere (Vector3.mk 0 0 (- 17 / 2000))).
Proof.
  unfold checkCollision.
  change (boat bodyA) with (Some (node (Vector3.mk 0 0 110))).
  cbn [deref bind].
  change (Object3D.position (node (Vector3.mk 0 0 110)))
    with (Vector3.mk 0 0 110).
  change (Object3D.position (object sphere)) with (Vector3.mk 0 0 100).
  change (radius bodyA) with 5. change (sradius sphere) with 20.
  assert (Hd : Vector3.distanceTo (Vector3.mk 0 0 110) (Vector3.mk 0 0 100)
               = 10).
  { unfold Vector3.distanceTo, Vector3.distanceToSquared.
    cbn [Vector3.x Vector3.y Vector3.z].
    replace ((0 - 0) * (0 - 0) + (0 - 0) * (0 - 0)
             + (110 - 100) * (110 - 100)) with (10 * 10) by ring.
    apply sqrt_square; lra. }
  rewrite Hd.
  destruct (Rltb 10 (5 + 50 + 20)) eqn:E; [| apply Rltb_false in E; lra].
  rewrite (@CollisionFacts.handleCollision_closing
             (setCollided bodyA true) sphere
             (node (Vector3.mk 0 0 110)) (Vector3.mk 0 0 (-5)));
    try reflexivity.
  - cbn [Object3D.position node object sphere svelocity smass mass
         setCollided bodyA boatAt].
    rewrite CollisionFacts.scenario_velocityAlongNormal,
            CollisionFacts.scenario_normal, head_on_impulseScalar,
            head_on_boat_velocity, head_on_sphere_velocity.
    reflexivity.
  - cbn [Object3D.position node object sphere svelocity].
    rewrite CollisionFacts.scenario_velocityAlongNormal. lra.
Qed.

(** C1.  Body A (mass 500, velocity (0, 0, -5)) meets body B (mass 500, at
    rest) head-on along the z axis, restitution 0.7.  The formulas of the
    specification give A the velocity (0, 0, -3/4) and B the velocity
    (0, 0, -17/4).  [handleCollision] gives A that velocity, but B gets
    (0, 0, -17/2000): the impulse it subtracts from B had already been
    divided by the mass of A. *)
Theorem handleCollision_head_on_velocities :
  let n := collisionNormal (Vector3.mk 0 0 110) (Vector3.mk 0 0 100) in
  Spec.resolve n (Vector3.mk 0 0 (-5)) (Vector3.mk 0 0 0) 500 500 restitution
  = (Vector3.mk 0 0 (- 3 / 4), Vector3.mk 0 0 (- 17 / 4))
  /\ handleCollision bodyA sphere
     = Normal (setVelocity bodyA (Vector3.mk 0 0 (- 3 / 4)),
               setSphereVelocity sphere (Vector3.mk 0 0 (- 17 / 2000)))
  /\ Vector3.mk 0 0 (- 17 / 2000) <> Vector3.mk 0 0 (- 17 / 4).
Proof.
  intros n; subst n. rewrite CollisionFacts.scenario_normal.
  split; [| split].
  - unfold Spec.resolve, restitution, Vector3.add, Vector3.sub,
      Vector3.divideScalar, Vector3.multiplyScalar, Vector3.dot,
      Vector3.subVectors.
    cbn [Vector3.x Vector3.y Vector3.z].
    f_equal; f_equal; field.
  - exact head_on_result.
  - intros H. injection H as H. lra.
Qed.

(** C2.  In the same head-on collision the momentum of the pair along the
    normal is -2500 before the call and -1517/4 after it: the call does not
    conserve it. *)
Theorem handleCollision_head_on_momentum :
  let n := collisionNormal (Vector3.mk 0 0 110) (Vector3.mk 0 0 100) in
  exists (a' : Boat) (s' : Sphere) (va' : Vector3.t),
    handleCollision bodyA sphere = Normal (a', s')
    /\ velocity a' = Some va'
    /\ Spec.momentumAlong n (Vector3.mk 0 0 (-5)) (svelocity sphere)
                          (mass bodyA) (smass sphere) = - 2500
    /\ Spec.momentumAlong n va' (svelocity s') (mass a') (smass s')
       = - 1517 / 4.
Proof.
  intros n; subst n. rewrite CollisionFacts.scenario_normal.
  eexists _, _, _. split; [exact head_on_result |].
  split; [reflexivity |].
  unfold Spec.momentumAlong, Vector3.dot, Vector3.add, Vector3.multiplyScalar.
  cbn. split; field.
Qed.

End HeadOn.

Module Separating.

Import ThrustModel Scenario.

(** C9.  When the velocity of the boat relative to the sphere points along
    the collision normal (velocityAlongNormal > 0), [handleCollision] called
    any number of times in a row completes and returns both bodies as they
    were: neither velocity changes. *)
Theorem handleCollision_separating_noop
        (n : nat) (b : Boat) (other : Sphere)
        (o : Object3D.t) (va : Vector3.t) :
  boat b = Some o ->
  velocity b = Some va ->
  velocityAlongNormal (Object3D.position o)
                      (Object3D.position (object other))
                      va (svelocity other) > 0 ->
  handleCollisionTimes n b other = Normal (b, other).
Proof.
  intros Hb Hv Hvan. induction n as [| k IH].
  - reflexivity.
  - cbn [handleCollisionTimes].
    rewrite (CollisionFacts.handleCollision_separating b other Hb Hv Hvan).
    cbn [bind fst snd]. exact IH.
Qed.

Lemma handleCollision_separating_noop_witness :
  handleCollisionTimes 3 leavingBoat sphere = Normal (leavingBoat, sphere).
Proof.
  apply (@handleCollision_separating_noop
           3 leavingBoat sphere
           (node (Vector3.mk 0 0 110)) (Vector3.mk 0 0 5)).
  - reflexivity.
  - reflexivity.
  - cbn [Object3D.position node object sphere svelocity].
    rewrite CollisionFacts.scenario_velocityAlongNormal. lra.
Defined.

End Separating.

(** ** Buoyancy and the floor ([unnamed/part_001], [update]) *)

Module Buoyancy.

Import ThrustModel Scenario.

Lemma loadedBoat_node : boat loadedBoat = Some loadedNode.
Proof. reflexivity. Qed.





Lemma floorClamp_floor (pos vel : Vector3.t) :
  -4 <= Vector3.y (fst (floorClamp pos vel))
  /\ (Vector3.y pos < -4 ->
      fst (floorClamp pos vel) = Vector3.setY pos (-4)
      /\ snd (floorClamp pos vel) = Vector3.setY vel 0)
  /\ (-4 <= Vector3.y pos -> floorClamp pos vel = (pos, vel)).
Proof.
  unfold floorClamp. destruct (Rltb (Vector3.y pos) (-4)) eqn:E.
  - apply Rltb_true in E. cbn. repeat split; auto; try lra.
  - apply Rltb_false in E. cbn. repeat split; auto; lra.
Qed.

End Buoyancy.

(** ** Bodies whose asset is not loaded yet *)

Module UnreadyBody.

(** [update] of the thrust-driven boat returns at once. *)
Lemma thrust_update_Unready (b : ThrustModel.Boat) (deltaTime : R) :
  ThrustModel.boat b = None ->
  ThrustModel.update b deltaTime = Normal b.
Proof. intros H. unfold ThrustModel.update. rewrite H. reflexivity. Qed.

(** [update] of the wind-driven boat skips its body, in both variants. *)
Lemma wind_update_Unready (env : WindModel.Environment)
      (b : WindModel.Boat) (deltaTime : R) :
  WindModel.boat b = None ->
  WindModel.update env b deltaTime = Normal b
  /\ forall wd sa, WindModelCos.update env b deltaTime wd sa = Normal b.
Proof.
  intros H. unfold WindModel.update, WindModelCos.update. rewrite H.
  split; reflexivity.
Qed.

(** [checkCollision] and [handleCollision] read [this.boat.position]
    without a test. *)
Lemma checkCollision_Unready (b : ThrustModel.Boat)
      (other : ThrustModel.Sphere) :
  ThrustModel.boat b = None ->
  ThrustModel.checkCollision b other = Throw TypeError
  /\ ThrustModel.handleCollision b other = Throw TypeError.
Proof.
  intros H. unfold ThrustModel.checkCollision, ThrustModel.handleCollision.
  rewrite H. split; reflexivity.
Qed.

(** C6.  On the boat as [new Boat()] leaves it, before the asset is
    loaded, [update] is a no-op that completes normally, whereas
    [checkCollision] throws a [TypeError] for every sphere: it is not a
    guarded no-op. *)
Theorem checkCollision_before_load_throws
        (other : ThrustModel.Sphere) (deltaTime : R) :
  ThrustModel.Unready ThrustModel.newBoat
  /\ (b <- ThrustModel.constructor ;; ThrustModel.update b deltaTime)
     = Normal ThrustModel.newBoat
  /\ (b <- ThrustModel.constructor ;; ThrustModel.checkCollision b other)
     = Throw TypeError.
Proof.
  split; [| split].
  - repeat split.
  - reflexivity.
  - reflexivity.
Qed.

End UnreadyBody.

(** ** Configuration of the mass *)

Module Configuration.

(** A mass of zero is taken by [new Forces], a negative one by [setMass];
    both calls complete normally and store it. *)
Lemma nonpositive_mass_accepted :
  (exists f,
      WindModel.constructor 0 2 1000 None None = Normal f
      /\ WindModel.mass f = 0)
  /\ (exists b,
         ThrustModel.setMass ThrustModel.newBoat (-3) = Normal b
         /\ ThrustModel.mass b = -3
         /\ ThrustModel.inertia b = -2).
Proof.
  split.
  - eexists. split; reflexivity.
  - eexists. split; [reflexivity |]. split; [reflexivity |].
    cbn. field.
Qed.

(** C5, as the code has it.  [new Forces] and [setMass] check nothing:
    for every mass, also zero or negative, they complete normally and
    store the mass as given; the gravity force is -9.81 * mass, the
    inertia is 2/3 of the mass (so not positive when the mass is not),
    and [computeAcceleration] divides by exactly that mass. *)
Theorem mass_is_not_validated
        (m volumeDisplaced fluidDensity : R)
        (dragCoefficient : option R) (windForce : option Vector3.t) :
  (exists f,
      WindModel.constructor m volumeDisplaced fluidDensity
                            dragCoefficient windForce = Normal f
      /\ WindModel.mass f = m
      /\ WindModel.gravity f
         = Vector3.mk 0 (- WindModel.GRAVITY_ACCELERATION * m) 0
      /\ forall netForce,
          WindModel.computeAcceleration f netForce
          = Vector3.divideScalar netForce m)
  /\ (forall b,
         exists b',
           ThrustModel.setMass b m = Normal b'
           /\ ThrustModel.mass b' = m
           /\ ThrustModel.inertia b' = 2 / 3 * m
           /\ (m <= 0 -> ThrustModel.inertia b' <= 0)).
Proof.
  split.
  - eexists. split; [reflexivity |]. repeat split.
  - intros b. eexists. split; [reflexivity |].
    assert (E : 1 / 12 * m * (2 ^ 2 + 2 ^ 2) = 2 / 3 * m) by field.
    cbn [ThrustModel.mass ThrustModel.inertia]. rewrite E.
    repeat split. lra.
Qed.

End Configuration.

(** ** The wind-driven boat ([main.js], [unnamed/part_000]) *)

Module WindFacts.

Import WindModel.

Lemma clampSailAngle_range (a : R) : 0 <= clampSailAngle a <= PI / 2.
Proof.
  pose proof PI_RGT_0 as Hpi. unfold clampSailAngle. split.
  - apply Rmax_l.
  - apply Rmax_lub; [lra | apply Rmin_r].
Qed.

Lemma clampSailAngle_cases (a : R) :
  (a <= 0 -> clampSailAngle a = 0)
  /\ (0 <= a <= PI / 2 -> clampSailAngle a = a)
  /\ (PI / 2 <= a -> clampSailAngle a = PI / 2).
Proof.
  pose proof PI_RGT_0 as Hpi. unfold clampSailAngle. repeat split; intros H.
  - rewrite Rmin_left by lra. apply Rmax_left; lra.
  - rewrite Rmin_left by lra. apply Rmax_right; lra.
  - rewrite Rmin_right by lra. apply Rmax_right; lra.
Qed.

Lemma multiplyScalar_0 (v : Vector3.t) :
  Vector3.multiplyScalar v 0 = Vector3.mk 0 0 0.
Proof. unfold Vector3.multiplyScalar. f_equal; ring. Qed.

Lemma multiplyScalar_1 (v : Vector3.t) : Vector3.multiplyScalar v 1 = v.
Proof. destruct v. unfold Vector3.multiplyScalar; cbn. f_equal; ring. Qed.

(** With the sail at angle 0 the cosine variant returns the whole wind,
    here the default wind (1, 0, 0): not the zero force, and not the wind
    scaled by the sine of the clamped angle. *)
Lemma computeWindForce_cos_at_zero :
  WindModelCos.computeWindForce (Vector3.mk 1 0 0) 0 = Vector3.mk 1 0 0
  /\ WindModelCos.computeWindForce (Vector3.mk 1 0 0) 0 <> Vector3.mk 0 0 0
  /\ WindModelCos.computeWindForce (Vector3.mk 1 0 0) 0
     <> Vector3.multiplyScalar (Vector3.mk 1 0 0)
                               (Rabs (sin (clampSailAngle 0))).
Proof.
  assert (E : WindModelCos.computeWindForce (Vector3.mk 1 0 0) 0
              = Vector3.mk 1 0 0).
  { unfold WindModelCos.computeWindForce, Vector3.clone.
    rewrite cos_0, Rabs_R1. apply multiplyScalar_1. }
  rewrite E. split; [reflexivity | split].
  - intros H. injection H as H. lra.
  - destruct (clampSailAngle_cases 0) as [H0 _].
    rewrite H0 by lra. rewrite sin_0, Rabs_R0, multiplyScalar_0.
    intros H. injection H as H. lra.
Qed.

(** C4, as the code has it.  In [main.js], [computeWindForce] clamps the
    sail angle into [0, pi/2] and returns the wind direction scaled by the
    absolute value of the sine of the clamped angle, which is at most 1:
    angle 0 gives the zero force and angle pi/2 gives the wind direction
    itself.  In [unnamed/part_000] the angle is not clamped and the factor
    is the absolute value of its cosine: angle 0 gives the wind direction
    itself and angle pi/2 the zero force. *)
Theorem computeWindForce_by_variant (wind : Vector3.t) (angle : R) :
  (0 <= clampSailAngle angle <= PI / 2
   /\ (angle <= 0 -> clampSailAngle angle = 0)
   /\ (0 <= angle <= PI / 2 -> clampSailAngle angle = angle)
   /\ (PI / 2 <= angle -> clampSailAngle angle = PI / 2)
   /\ WindModel.computeWindForce wind angle
      = Vector3.multiplyScalar wind (Rabs (sin (clampSailAngle angle)))
   /\ Rabs (sin (clampSailAngle angle)) <= 1
   /\ WindModel.computeWindForce wind 0 = Vector3.mk 0 0 0
   /\ WindModel.computeWindForce wind (PI / 2) = wind)
  /\ (WindModelCos.computeWindForce wind angle
      = Vector3.multiplyScalar wind (Rabs (cos angle))
      /\ WindModelCos.computeWindForce wind 0 = wind
      /\ WindModelCos.computeWindForce wind (PI / 2) = Vector3.mk 0 0 0).
Proof.
  pose proof PI_RGT_0 as Hpi.
  destruct (clampSailAngle_cases angle) as (Hlow & Hmid & Hhigh).
  split.
  - split; [apply clampSailAngle_range |].
    split; [exact Hlow |]. split; [exact Hmid |]. split; [exact Hhigh |].
    split; [reflexivity |]. split.
    + apply Rabs_le. pose proof (SIN_bound (clampSailAngle angle)). lra.
    + unfold WindModel.computeWindForce, Vector3.clone. split.
      * destruct (clampSailAngle_cases 0) as [H0 _].
        rewrite H0 by lra. rewrite sin_0, Rabs_R0. apply multiplyScalar_0.
      * destruct (clampSailAngle_cases (PI / 2)) as (_ & _ & H2).
        rewrite H2 by lra. rewrite sin_PI2, Rabs_R1. apply multiplyScalar_1.
  - unfold WindModelCos.computeWindForce, Vector3.clone.
    split; [reflexivity |]. split.
    + rewrite cos_0, Rabs_R1. apply multiplyScalar_1.
    + rewrite cos_PI2, Rabs_R0. apply multiplyScalar_0.
Qed.

End WindFacts.

Module Heading.

Import WindModel.

Lemma boatForces_constructed :
  constructor 500 2 1000 None None = Normal WindScenario.boatForces.
Proof. reflexivity. Qed.

(** With no rotation about the x and z axes the heading is horizontal. *)
Lemma getWorldDirection_yaw_only (o : Object3D.t) :
  Euler.x (Object3D.rotation o) = 0 ->
  Euler.z (Object3D.rotation o) = 0 ->
  Vector3.y (Object3D.getWorldDirection o) = 0.
Proof.
  intros Hx Hz.
  unfold Object3D.getWorldDirection, Object3D.quaternion,
    Quaternion.setFromEuler, Vector3.normalize, Vector3.divideScalar,
    Vector3.multiplyScalar.
  cbn [Vector3.x Vector3.y Vector3.z
       Quaternion.x Quaternion.y Quaternion.z Quaternion.w].
  rewrite Hx, Hz.
  replace (0 / 2) with 0 by field.
  rewrite sin_0, cos_0. ring.
Qed.

(** C10.  A step of the loaded wind-driven boat whose orientation is a
    rotation about the vertical axis only completes and leaves position.y
    as it was, whatever the forces, the velocity and the time step; the
    orientation stays a rotation about the vertical axis.  This holds for
    [update] of [main.js] and of [unnamed/part_000]. *)
Theorem update_keeps_height
        (env : Environment) (b : Boat) (deltaTime : R) (o : Object3D.t) :
  boat b = Some o ->
  Euler.x (Object3D.rotation o) = 0 ->
  Euler.z (Object3D.rotation o) = 0 ->
  (exists b' o',
      WindModel.update env b deltaTime = Normal b'
      /\ boat b' = Some o'
      /\ Vector3.y (Object3D.position o') = Vector3.y (Object3D.position o)
      /\ Euler.x (Object3D.rotation o') = 0
      /\ Euler.z (Object3D.rotation o') = 0)
  /\ (forall wind angle,
         exists b' o',
           WindModelCos.update env b deltaTime wind angle = Normal b'
           /\ boat b' = Some o'
           /\ Vector3.y (Object3D.position o')
              = Vector3.y (Object3D.position o)
           /\ Euler.x (Object3D.rotation o') = 0
           /\ Euler.z (Object3D.rotation o') = 0).
Proof.
  intros Hb Hx Hz.
  pose proof (getWorldDirection_yaw_only o Hx Hz) as Hdir.
  split; [| intros wind angle];
    unfold WindModel.update, WindModelCos.update; rewrite Hb;
    eexists _, _; (split; [reflexivity |]);
    cbn [boat]; (split; [reflexivity |]);
    cbn [Object3D.position Object3D.rotation Object3D.setRotationY
         Object3D.setPosition Euler.setY Euler.x Euler.z
         Vector3.add Vector3.multiplyScalar Vector3.y];
    rewrite Hdir; repeat split; auto; ring.
Qed.

Lemma update_keeps_height_witness :
  exists b' o',
    WindModel.update initialEnvironment WindScenario.sailingBoat (16 / 1000)
    = Normal b'
    /\ boat b' = Some o'
    /\ Vector3.y (Object3D.position o') = -10.
Proof.
  destruct (@update_keeps_height
              initialEnvironment WindScenario.sailingBoat (16 / 1000)
              (Object3D.mk (Vector3.mk 0 (-10) 0) (Euler.mk 0 PI 0)
                           (Vector3.mk 1 1 1))
              eq_refl eq_refl eq_refl)
    as [(b' & o' & Hu & Hb & Hy & _) _].
  exists b', o'. repeat split; assumption.
Defined.

End Heading.

(** * Further properties *)

(** ** More on vectors *)

Lemma length_multiplyScalar (v : Vector3.t) (s : R) :
  Vector3.length (Vector3.multiplyScalar v s) = Rabs s * Vector3.length v.
Proof.
  destruct v as [a b c]. unfold Vector3.length, Vector3.multiplyScalar.
  cbn [Vector3.x Vector3.y Vector3.z].
  replace (a * s * (a * s) + b * s * (b * s) + c * s * (c * s))
    with (Rsqr s * (a * a + b * b + c * c)) by (unfold Rsqr; ring).
  rewrite sqrt_mult.
  - rewrite sqrt_Rsqr_abs. reflexivity.
  - apply Rle_0_sqr.
  - nra.
Qed.

Lemma length_nonnegative (v : Vector3.t) : 0 <= Vector3.length v.
Proof. unfold Vector3.length. apply sqrt_pos. Qed.

Lemma sin_half_cos_half (a : R) :
  2 * sin (a / 2) * cos (a / 2) = sin a
  /\ 1 - 2 * (sin (a / 2) * sin (a / 2)) = cos a
  /\ cos (a / 2) * cos (a / 2) = 1 - sin (a / 2) * sin (a / 2).
Proof.
  split; [| split].
  - rewrite <- sin_2a. f_equal. field.
  - replace (1 - 2 * (sin (a / 2) * sin (a / 2)))
      with (1 - 2 * sin (a / 2) * sin (a / 2)) by ring.
    rewrite <- cos_2a_sin. f_equal. field.
  - pose proof (sin2_cos2 (a / 2)) as H. unfold Rsqr in H. lra.
Qed.

(** ** The wind force and the net force ([main.js]) *)

Module WindForce.

Import WindModel.

Lemma effectiveness_is_sine (angle : R) :
  Rabs (sin (clampSailAngle angle)) = sin (clampSailAngle angle)
  /\ 0 <= sin (clampSailAngle angle) <= 1.
Proof.
  pose proof PI_RGT_0 as Hpi.
  destruct (WindFacts.clampSailAngle_range angle) as [H0 H1].
  assert (Hs : 0 <= sin (clampSailAngle angle)) by (apply sin_ge_0; lra).
  split.
  - apply Rabs_pos_eq; exact Hs.
  - split; [exact Hs |]. pose proof (SIN_bound (clampSailAngle angle)); lra.
Qed.

Lemma clampSailAngle_monotone (a a' : R) :
  a <= a' -> clampSailAngle a <= clampSailAngle a'.
Proof.
  intros H. unfold clampSailAngle.
  apply Rmax_case_strong; intros H1.
  - apply Rmax_l.
  - eapply Rle_trans; [| apply Rmax_r].
    apply Rmin_case_strong; intros H2.
    + apply Rmin_glb; lra.
    + apply Rmin_glb; lra.
Qed.

(** X1.  The wind force is never stronger than the wind: its length is the
    length of the wind direction times the sine of the clamped sail angle,
    hence at most the length of the wind direction, and it does not shrink
    when the sail angle grows. *)
Theorem computeWindForce_length (wind : Vector3.t) (angle : R) :
  Vector3.length (computeWindForce wind angle)
  = sin (clampSailAngle angle) * Vector3.length wind
  /\ Vector3.length (computeWindForce wind angle) <= Vector3.length wind
  /\ (forall angle',
         angle <= angle' ->
         Vector3.length (computeWindForce wind angle)
         <= Vector3.length (computeWindForce wind angle')).
Proof.
  pose proof PI_RGT_0 as Hpi.
  pose proof (length_nonnegative wind) as Hw.
  assert (E : forall a,
             Vector3.length (computeWindForce wind a)
             = sin (clampSailAngle a) * Vector3.length wind).
  { intros a. unfold computeWindForce, Vector3.clone.
    rewrite length_multiplyScalar, Rabs_Rabsolu.
    destruct (effectiveness_is_sine a) as [-> _]. reflexivity. }
  split; [apply E | split].
  - rewrite E. destruct (effectiveness_is_sine angle) as [_ [H0 H1]]. nra.
  - intros angle' Hle. rewrite !E.
    apply Rmult_le_compat_r; [exact Hw |].
    destruct (WindFacts.clampSailAngle_range angle) as [A0 A1].
    destruct (WindFacts.clampSailAngle_range angle') as [B0 B1].
    apply sin_incr_1; try lra.
    apply clampSailAngle_monotone; exact Hle.
Qed.

(** X2.  The net force on a body built by [new Forces(...)]: buoyancy minus
    weight on the vertical axis, the wind scaled by the sail, and a drag of
    three times the drag coefficient times the velocity (air once, water
    twice). *)
Theorem computeNetForce_of_constructed
        (m volume density : R) (drag : option R) (w0 : option Vector3.t)
        (velocity wind : Vector3.t) (angle : R) :
  let c := match drag with Some d => d | None => 1 / 10 end in
  let e := sin (clampSailAngle angle) in
  exists f,
    constructor m volume density drag w0 = Normal f
    /\ computeNetForce f velocity wind angle
       = Vector3.mk
           (Vector3.x wind * e - 3 * c * Vector3.x velocity)
           (GRAVITY_ACCELERATION * (density * volume - m)
            + Vector3.y wind * e - 3 * c * Vector3.y velocity)
           (Vector3.z wind * e - 3 * c * Vector3.z velocity).
Proof.
  intros c e. eexists. split; [reflexivity |].
  unfold computeNetForce, computeWindForce, computeAirResistance,
    computeWaterResistance, computeBuoyancyOf, Vector3.clone, Vector3.zero,
    Vector3.add, Vector3.multiplyScalar.
  destruct (effectiveness_is_sine angle) as [-> _].
  cbn [Vector3.x Vector3.y Vector3.z gravity buoyancy dragCoefficient].
  fold c. fold e. f_equal; ring.
Qed.

End WindForce.

(** ** Rest, heading and motion of the wind-driven boat ([main.js]) *)

Module WindMotion.

Import WindModel.





Lemma normalize_scaled_heading (a k : R) :
  0 < k ->
  Vector3.normalize (Vector3.mk (sin a * k) 0 (cos a * k)) = heading a.
Proof.
  intros Hk. unfold Vector3.normalize.
  assert (El : Vector3.length (Vector3.mk (sin a * k) 0 (cos a * k)) = k).
  { unfold Vector3.length. cbn [Vector3.x Vector3.y Vector3.z].
    replace (sin a * k * (sin a * k) + 0 * 0 + cos a * k * (cos a * k))
      with ((Rsqr (sin a) + Rsqr (cos a)) * (k * k)) by (unfold Rsqr; ring).
    rewrite sin2_cos2, Rmult_1_l. apply sqrt_square; lra. }
  rewrite El.
  destruct (Reqb k 0) eqn:E; [apply Reqb_true in E; lra |].
  unfold heading, Vector3.divideScalar, Vector3.multiplyScalar.
  cbn [Vector3.x Vector3.y Vector3.z]. f_equal; field; lra.
Qed.

Lemma getWorldDirection_heading (o : Object3D.t) :
  Euler.x (Object3D.rotation o) = 0 ->
  Euler.z (Object3D.rotation o) = 0 ->
  0 < Vector3.z (Object3D.scale o) ->
  Object3D.getWorldDirection o = heading (Euler.y (Object3D.rotation o)).
Proof.
  intros Hx Hz Hs.
  rewrite <- (normalize_scaled_heading (Euler.y (Object3D.rotation o)) Hs).
  unfold Object3D.getWorldDirection, Object3D.quaternion,
    Quaternion.setFromEuler.
  cbn [Quaternion.x Quaternion.y Quaternion.z Quaternion.w].
  rewrite Hx, Hz. replace (0 / 2) with 0 by field. rewrite sin_0, cos_0.
  destruct (sin_half_cos_half (Euler.y (Object3D.rotation o)))
    as (Hsin & Hcos & _).
  rewrite <- Hsin, <- Hcos.
  f_equal. f_equal; ring.
Qed.

(** X4.  The boat moves where it points.  A step of the loaded boat whose
    orientation is a rotation by [a] about the vertical axis (scale
    positive) moves it by speed * deltaTime along the horizontal heading
    (sin a, 0, cos a), where the speed is the length of the velocity after
    the step; the direction of the velocity plays no part, so for
    deltaTime >= 0 the boat never moves against its heading.  The step then
    turns the boat by rotationSpeed * deltaTime. *)
Theorem update_moves_along_heading
        (env : Environment) (b : Boat) (deltaTime : R) (o : Object3D.t) :
  boat b = Some o ->
  Euler.x (Object3D.rotation o) = 0 ->
  Euler.z (Object3D.rotation o) = 0 ->
  0 < Vector3.z (Object3D.scale o) ->
  let a := Euler.y (Object3D.rotation o) in
  exists b' o',
    update env b deltaTime = Normal b'
    /\ boat b' = Some o'
    /\ Object3D.position o'
       = Vector3.add (Object3D.position o)
                     (Vector3.multiplyScalar
                        (heading a)
                        (Vector3.length (velocity b') * deltaTime))
    /\ Object3D.rotation o' = Euler.mk 0 (a + rotationSpeed b * deltaTime) 0
    /\ Object3D.scale o' = Object3D.scale o
    /\ (0 <= deltaTime ->
        0 <= Vector3.dot
               (Vector3.subVectors (Object3D.position o')
                                   (Object3D.position o))
               (heading a)).
Proof.
  intros Hb Hx Hz Hs a.
  pose proof (getWorldDirection_heading o Hx Hz Hs) as Hdir. fold a in Hdir.
  unfold update. rewrite Hb. eexists _, _.
  split; [reflexivity |]. cbn [boat velocity]. split; [reflexivity |].
  cbn [Object3D.position Object3D.rotation Object3D.scale
       Object3D.setRotationY Object3D.setPosition Euler.setY Euler.y].
  unfold Euler.setY. rewrite Hdir, Hx, Hz. fold a.
  split; [reflexivity |]. split; [reflexivity |]. split; [reflexivity |].
  intros Hdt.
  match goal with
  | |- context [Vector3.length ?v * deltaTime] =>
      pose proof (length_nonnegative v) as Hlen;
      set (speed := Vector3.length v) in *
  end.
  unfold Vector3.dot, Vector3.subVectors, Vector3.add, Vector3.multiplyScalar,
    heading.
  cbn [Vector3.x Vector3.y Vector3.z].
  pose proof (sin2_cos2 a) as Hsc. unfold Rsqr in Hsc.
  replace ((Vector3.x (Object3D.position o) + sin a * (speed * deltaTime)
            - Vector3.x (Object3D.position o)) * sin a
           + (Vector3.y (Object3D.position o) + 0 * (speed * deltaTime)
              - Vector3.y (Object3D.position o)) * 0
           + (Vector3.z (Object3D.position o) + cos a * (speed * deltaTime)
              - Vector3.z (Object3D.position o)) * cos a)
    with ((sin a * sin a + cos a * cos a) * (speed * deltaTime)) by ring.
  rewrite Hsc. nra.
Qed.

Lemma update_moves_along_heading_witness :
  exists b' o',
    update initialEnvironment WindScenario.sailingBoat (16 / 1000) = Normal b'
    /\ boat b' = Some o'
    /\ Object3D.position o'
       = Vector3.add (Vector3.mk 0 (-10) 0)
                     (Vector3.multiplyScalar
                        (heading PI)
                        (Vector3.length (velocity b') * (16 / 1000))).
Proof.
  destruct (@update_moves_along_heading
              initialEnvironment WindScenario.sailingBoat (16 / 1000)
              (Object3D.mk (Vector3.mk 0 (-10) 0) (Euler.mk 0 PI 0)
                           (Vector3.mk 1 1 1))
              eq_refl eq_refl eq_refl)
    as (b' & o' & Hu & Hb & Hp & _).
  - cbn. lra.
  - exists b', o'. repeat split; assumption.
Defined.

End WindMotion.

(** ** The key handlers and whole sessions ([main.js], [unnamed/part_000]) *)

Module Sessions.

Import WindModel MainScript.

(** Turning a vector about the vertical axis. *)
Lemma applyAxisAngle_vertical (v : Vector3.t) (a : R) :
  applyAxisAngle v (Vector3.mk 0 1 0) a
  = Vector3.mk (Vector3.x v * cos a + Vector3.z v * sin a)
               (Vector3.y v)
               (Vector3.z v * cos a - Vector3.x v * sin a).
Proof.
  destruct (sin_half_cos_half a) as (Hsin & Hcos & _).
  rewrite <- Hsin, <- Hcos.
  unfold applyAxisAngle, applyQuaternion, setFromAxisAngle.
  cbn [Vector3.x Vector3.y Vector3.z
       Quaternion.x Quaternion.y Quaternion.z Quaternion.w].
  f_equal; ring.
Qed.

Lemma turn_left_right (v : Vector3.t) (a : R) :
  applyAxisAngle (applyAxisAngle v (Vector3.mk 0 1 0) a)
                 (Vector3.mk 0 1 0) (- a) = v
  /\ applyAxisAngle (applyAxisAngle v (Vector3.mk 0 1 0) (- a))
                    (Vector3.mk 0 1 0) a = v.
Proof.
  pose proof (sin2_cos2 a) as H. unfold Rsqr in H.
  rewrite !applyAxisAngle_vertical, sin_neg, cos_neg.
  cbn [Vector3.x Vector3.y Vector3.z]. destruct v as [x y z].
  cbn [Vector3.x Vector3.y Vector3.z].
  split; f_equal.
  - replace ((x * cos a + z * sin a) * cos a
             + (z * cos a - x * sin a) * - sin a)
      with (x * (sin a * sin a + cos a * cos a)) by ring.
    rewrite H; ring.
  - replace ((z * cos a - x * sin a) * cos a
             - (x * cos a + z * sin a) * - sin a)
      with (z * (sin a * sin a + cos a * cos a)) by ring.
    rewrite H; ring.
  - replace ((x * cos a + z * - sin a) * cos a
             + (z * cos a - x * - sin a) * sin a)
      with (x * (sin a * sin a + cos a * cos a)) by ring.
    rewrite H; ring.
  - replace ((z * cos a - x * - sin a) * cos a
             - (x * cos a + z * - sin a) * sin a)
      with (z * (sin a * sin a + cos a * cos a)) by ring.
    rewrite H; ring.
Qed.

Lemma turn_keeps_length (v : Vector3.t) (a : R) :
  Vector3.length (applyAxisAngle v (Vector3.mk 0 1 0) a) = Vector3.length v.
Proof.
  pose proof (sin2_cos2 a) as H. unfold Rsqr in H.
  rewrite applyAxisAngle_vertical. unfold Vector3.length.
  cbn [Vector3.x Vector3.y Vector3.z]. f_equal.
  replace ((Vector3.x v * cos a + Vector3.z v * sin a)
           * (Vector3.x v * cos a + Vector3.z v * sin a)
           + Vector3.y v * Vector3.y v
           + (Vector3.z v * cos a - Vector3.x v * sin a)
             * (Vector3.z v * cos a - Vector3.x v * sin a))
    with ((Vector3.x v * Vector3.x v + Vector3.z v * Vector3.z v)
          * (sin a * sin a + cos a * cos a)
          + Vector3.y v * Vector3.y v) by ring.
  rewrite H. ring.
Qed.

Lemma keyDown_ArrowLeft (w : World) :
  handleKeyDown w "ArrowLeft"
  = setWind w (applyAxisAngle (windDirection (environment w))
                              (Vector3.mk 0 1 0) (PI / 18)).
Proof. reflexivity. Qed.

Lemma keyDown_ArrowRight (w : World) :
  handleKeyDown w "ArrowRight"
  = setWind w (applyAxisAngle (windDirection (environment w))
                              (Vector3.mk 0 1 0) (- PI / 18)).
Proof. reflexivity. Qed.

(** X5.  The two wind keys undo each other: [ArrowLeft] then [ArrowRight], or
    [ArrowRight] then [ArrowLeft], gives back the world as it was. *)
Theorem wind_keys_round_trip (w : World) :
  handleKeyDown (handleKeyDown w "ArrowLeft") "ArrowRight" = w
  /\ handleKeyDown (handleKeyDown w "ArrowRight") "ArrowLeft" = w.
Proof.
  rewrite !keyDown_ArrowLeft, !keyDown_ArrowRight.
  replace (- PI / 18) with (- (PI / 18)) by field.
  destruct w as [[wind sail] b]. unfold setWind.
  cbn [environment theBoat windDirection sailAngle].
  destruct (turn_left_right wind (PI / 18)) as [-> ->].
  split; reflexivity.
Qed.

(** Every step of a session completes. *)
Lemma step_completes (w : World) (e : Event) :
  exists w', step w e = Normal w'.
Proof.
  destruct e as [key | key | deltaTime]; cbn [step]; try (eexists; reflexivity).
  unfold animate, update. destruct (boat (theBoat w)); eexists; reflexivity.
Qed.

(** What each step keeps, the whole session keeps. *)
Lemma run_keeps (P : World -> Prop) :
  (forall w e w', P w -> step w e = Normal w' -> P w') ->
  forall events w,
    P w -> exists w', run w events = Normal w' /\ P w'.
Proof.
  intros Hstep events. induction events as [| e rest IH]; intros w Hw.
  - exists w. split; [reflexivity | exact Hw].
  - destruct (step_completes w e) as [w1 H1].
    cbn [run]. rewrite H1. cbn [bind].
    apply IH. exact (Hstep w e w1 Hw H1).
Qed.

Ltac by_key :=
  repeat match goal with
         | |- context [String.eqb ?k ?l] => destruct (String.eqb k l)
         end;
  cbn [orb].

Lemma step_environment (w : World) (e : Event) (w' : World) :
  step w e = Normal w' ->
  (sailAngle (environment w') = sailAngle (environment w)
   \/ sailAngle (environment w')
      = Rmin (sailAngle (environment w) + PI / 18) (PI / 2)
   \/ sailAngle (environment w')
      = Rmax (sailAngle (environment w) - PI / 18) 0)
  /\ (windDirection (environment w') = windDirection (environment w)
      \/ exists a,
          windDirection (environment w')
          = applyAxisAngle (windDirection (environment w))
                           (Vector3.mk 0 1 0) a).
Proof.
  destruct e as [key | key | deltaTime]; cbn [step]; intros H.
  - injection H as <-. unfold handleKeyDown. by_key;
      cbn [setBoat setWind setSail environment sailAngle windDirection];
      split; eauto.
  - injection H as <-. unfold handleKeyUp. by_key;
      cbn [setBoat environment]; split; auto.
  - unfold animate, update in H. destruct (boat (theBoat w));
      cbn [bind] in H; injection H as <-; cbn [setBoat environment];
      split; auto.
Qed.

(** X6.  Through any session of key presses, key releases and frames the sail
    angle, once within [0, pi/2], stays there; the clamp of
    [computeWindForce] then leaves it as it is and the wind force is the
    wind scaled by the sine of the sail angle. *)
Theorem session_keeps_sail_in_range (events : list Event) (w : World) :
  0 <= sailAngle (environment w) <= PI / 2 ->
  exists w',
    run w events = Normal w'
    /\ 0 <= sailAngle (environment w') <= PI / 2
    /\ clampSailAngle (sailAngle (environment w'))
       = sailAngle (environment w')
    /\ forall wind,
        computeWindForce wind (sailAngle (environment w'))
        = Vector3.multiplyScalar wind (sin (sailAngle (environment w'))).
Proof.
  intros Hw.
  destruct (@run_keeps
              (fun w => 0 <= sailAngle (environment w) <= PI / 2)) with
    (events := events) (w := w) as (w' & Hrun & Hin); [| exact Hw |].
  - clear. intros w e w' Hin Hstep. pose proof PI_RGT_0 as Hpi.
    destruct (@step_environment _ _ _ Hstep) as [[-> | [-> | ->]] _].
    + exact Hin.
    + split; [apply Rmin_glb; lra | apply Rmin_r].
    + split; [apply Rmax_r |]. apply Rmax_lub; lra.
  - exists w'. split; [exact Hrun |]. split; [exact Hin |].
    destruct (WindFacts.clampSailAngle_cases (sailAngle (environment w')))
      as (_ & Hmid & _).
    pose proof (Hmid Hin) as Hclamp. split; [exact Hclamp |].
    intros wind. unfold computeWindForce, Vector3.clone.
    destruct (WindForce.effectiveness_is_sine (sailAngle (environment w')))
      as [-> _].
    rewrite Hclamp. reflexivity.
Qed.

Lemma session_keeps_sail_in_range_witness :
  exists w',
    run (mkWorld initialEnvironment WindScenario.sailingBoat)
        (KeyDown "ArrowUp" :: KeyDown "ArrowDown"
         :: AnimationFrame (16 / 1000) :: nil) = Normal w'
    /\ 0 <= sailAngle (environment w') <= PI / 2.
Proof.
  destruct (@session_keeps_sail_in_range
              (KeyDown "ArrowUp" :: KeyDown "ArrowDown"
               :: AnimationFrame (16 / 1000) :: nil)
              (mkWorld initialEnvironment WindScenario.sailingBoat))
    as (w' & Hrun & Hin & _).
  - cbn. pose proof PI_RGT_0. lra.
  - exists w'. split; assumption.
Defined.

(** X7.  Through any session the wind keeps its vertical component and its
    length: the wind keys only turn it about the vertical axis. *)
Theorem session_keeps_wind_strength (events : list Event) (w : World) :
  exists w',
    run w events = Normal w'
    /\ Vector3.y (windDirection (environment w'))
       = Vector3.y (windDirection (environment w))
    /\ Vector3.length (windDirection (environment w'))
       = Vector3.length (windDirection (environment w)).
Proof.
  destruct (@run_keeps
              (fun w' =>
                 Vector3.y (windDirection (environment w'))
                 = Vector3.y (windDirection (environment w))
                 /\ Vector3.length (windDirection (environment w'))
                    = Vector3.length (windDirection (environment w))))
    with (events := events) (w := w) as (w' & Hrun & Hin).
  - intros w1 e w2 [Hy Hl] Hstep.
    destruct (@step_environment _ _ _ Hstep) as [_ [-> | [a ->]]].
    + split; assumption.
    + rewrite turn_keeps_length. split; [| exact Hl].
      rewrite applyAxisAngle_vertical. exact Hy.
  - split; reflexivity.
  - exists w'. split; [exact Hrun | exact Hin].
Qed.

Lemma step_boat (w : World) (e : Event) (w' : World) (o : Object3D.t) :
  step w e = Normal w' ->
  boat (theBoat w) = Some o ->
  Euler.x (Object3D.rotation o) = 0 ->
  Euler.z (Object3D.rotation o) = 0 ->
  forces (theBoat w') = forces (theBoat w)
  /\ exists o',
      boat (theBoat w') = Some o'
      /\ Vector3.y (Object3D.position o') = Vector3.y (Object3D.position o)
      /\ Euler.x (Object3D.rotation o') = 0
      /\ Euler.z (Object3D.rotation o') = 0
      /\ Object3D.scale o' = Object3D.scale o.
Proof.
  intros Hstep Hb Hx Hz.
  destruct e as [key | key | deltaTime]; cbn [step] in Hstep.
  - injection Hstep as <-. unfold handleKeyDown. by_key;
      cbn [setBoat setWind setSail theBoat setVelocity setRotationSpeed
           boat forces];
      (split; [reflexivity | exists o; auto]).
  - injection Hstep as <-. unfold handleKeyUp. by_key;
      cbn [setBoat theBoat setVelocity setRotationSpeed boat forces];
      (split; [reflexivity | exists o; auto]).
  - unfold animate, update in Hstep. rewrite Hb in Hstep.
    cbn [bind] in Hstep. injection Hstep as <-.
    cbn [setBoat theBoat boat forces]. split; [reflexivity |].
    eexists. split; [reflexivity |].
    cbn [Object3D.position Object3D.rotation Object3D.scale
         Object3D.setRotationY Object3D.setPosition Euler.setY
         Euler.x Euler.z Vector3.add Vector3.multiplyScalar Vector3.y].
    rewrite (Heading.getWorldDirection_yaw_only o Hx Hz).
    repeat split; auto. ring.
Qed.

(** X8.  Through any session the loaded boat whose orientation is a rotation
    about the vertical axis stays loaded and so oriented, at the height
    (position.y) and with the scale and the [Forces] it had: neither keys
    nor frames ever move the boat up or down. *)
Theorem session_keeps_height
        (events : list Event) (w : World) (o : Object3D.t) :
  boat (theBoat w) = Some o ->
  Euler.x (Object3D.rotation o) = 0 ->
  Euler.z (Object3D.rotation o) = 0 ->
  exists w' o',
    run w events = Normal w'
    /\ boat (theBoat w') = Some o'
    /\ Vector3.y (Object3D.position o') = Vector3.y (Object3D.position o)
    /\ Euler.x (Object3D.rotation o') = 0
    /\ Euler.z (Object3D.rotation o') = 0
    /\ Object3D.scale o' = Object3D.scale o
    /\ forces (theBoat w') = forces (theBoat w).
Proof.
  intros Hb Hx Hz.
  destruct (@run_keeps
              (fun w' =>
                 forces (theBoat w') = forces (theBoat w)
                 /\ exists o',
                     boat (theBoat w') = Some o'
                     /\ Vector3.y (Object3D.position o')
                        = Vector3.y (Object3D.position o)
                     /\ Euler.x (Object3D.rotation o') = 0
                     /\ Euler.z (Object3D.rotation o') = 0
                     /\ Object3D.scale o' = Object3D.scale o))
    with (events := events) (w := w)
    as (w' & Hrun & Hf & o' & Hb' & Hy & Hx' & Hz' & Hs).
  - intros w1 e w2 (Hf1 & o1 & Hb1 & Hy1 & Hx1 & Hz1 & Hs1) Hstep.
    destruct (@step_boat _ _ _ _ Hstep Hb1 Hx1 Hz1)
      as (Hf2 & o2 & Hb2 & Hy2 & Hx2 & Hz2 & Hs2).
    split; [congruence |]. exists o2. repeat split; congruence.
  - split; [reflexivity |]. exists o. repeat split; auto.
  - exists w', o'. repeat split; auto.
Qed.

Lemma session_keeps_height_witness :
  exists w' o',
    run (mkWorld initialEnvironment WindScenario.sailingBoat)
        (KeyDown "a" :: AnimationFrame (16 / 1000) :: KeyUp "a"
         :: AnimationFrame (16 / 1000) :: nil) = Normal w'
    /\ boat (theBoat w') = Some o'
    /\ Vector3.y (Object3D.position o') = -10.
Proof.
  destruct (@session_keeps_height
              (KeyDown "a" :: AnimationFrame (16 / 1000) :: KeyUp "a"
               :: AnimationFrame (16 / 1000) :: nil)
              (mkWorld initialEnvironment WindScenario.sailingBoat)
              (Object3D.mk (Vector3.mk 0 (-10) 0) (Euler.mk 0 PI 0)
                           (Vector3.mk 1 1 1))
              eq_refl eq_refl eq_refl)
    as (w' & o' & Hrun & Hb & Hy & _).
  exists w', o'. repeat split; assumption.
Defined.

End Sessions.

Module SessionsCos.

Import WindModel MainScript.

Lemma cos_step_completes (w : World) (e : MainScriptCos.Event) :
  exists w', MainScriptCos.step w e = Normal w'.
Proof.
  destruct e as [key | key |]; cbn [MainScriptCos.step];
    try (eexists; reflexivity).
  unfold MainScriptCos.animate, WindModelCos.update.
  destruct (boat (theBoat w)); eexists; reflexivity.
Qed.

Lemma cos_step_sail (w : World) (e : MainScriptCos.Event) (w' : World) :
  MainScriptCos.step w e = Normal w' ->
  sailAngle (environment w') = sailAngle (environment w)
  \/ sailAngle (environment w')
     = Rmin (sailAngle (environment w) + PI / 18) PI
  \/ sailAngle (environment w')
     = Rmax (sailAngle (environment w) - PI / 18) 0.
Proof.
  destruct e as [key | key |]; cbn [MainScriptCos.step]; intros H.
  - injection H as <-. unfold MainScriptCos.handleKeyDown. Sessions.by_key;
      cbn [setBoat setWind setSail environment sailAngle]; auto.
  - injection H as <-. unfold handleKeyUp. Sessions.by_key;
      cbn [setBoat environment]; auto.
  - unfold MainScriptCos.animate, WindModelCos.update in H.
    destruct (boat (theBoat w)); cbn [bind] in H; injection H as <-;
      cbn [setBoat environment]; auto.
Qed.

(** X9.  In [unnamed/part_000] the sail angle, once within [0, pi], stays there
    through any session, and the factor of the wind force, the absolute
    value of its cosine, stays within [0, 1].  The range is wider than in
    [main.js]: one [ArrowUp] from pi/2 leads to 5 pi / 9. *)
Theorem cos_session_keeps_sail_in_range
        (events : list MainScriptCos.Event) (w : World) :
  0 <= sailAngle (environment w) <= PI ->
  (exists w',
      MainScriptCos.run w events = Normal w'
      /\ 0 <= sailAngle (environment w') <= PI
      /\ 0 <= Rabs (cos (sailAngle (environment w'))) <= 1)
  /\ sailAngle
       (environment (MainScriptCos.handleKeyDown (setSail w (PI / 2)) "ArrowUp"))
     = 5 * PI / 9.
Proof.
  intros Hw. pose proof PI_RGT_0 as Hpi. split.
  - revert w Hw. induction events as [| e rest IH]; intros w Hw.
    + exists w. split; [reflexivity |]. split; [exact Hw |].
      split; [apply Rabs_pos |].
      apply Rabs_le. pose proof (COS_bound (sailAngle (environment w))). lra.
    + destruct (cos_step_completes w e) as [w1 H1].
      cbn [MainScriptCos.run]. rewrite H1. cbn [bind]. apply IH.
      destruct (@cos_step_sail _ _ _ H1) as [-> | [-> | ->]].
      * exact Hw.
      * split; [apply Rmin_glb; lra | apply Rmin_r].
      * split; [apply Rmax_r |]. apply Rmax_lub; lra.
  - change (MainScriptCos.handleKeyDown (setSail w (PI / 2)) "ArrowUp")
      with (setSail (setSail w (PI / 2))
                    (Rmin (sailAngle (environment (setSail w (PI / 2)))
                           + PI / 18) PI)).
    cbn [setSail environment sailAngle].
    rewrite Rmin_left by lra. field.
Qed.

Lemma cos_session_keeps_sail_in_range_witness :
  exists w',
    MainScriptCos.run
      (mkWorld initialEnvironment WindScenario.sailingBoat)
      (MainScriptCos.KeyDown "ArrowUp" :: MainScriptCos.AnimationFrame :: nil)
    = Normal w'
    /\ 0 <= sailAngle (environment w') <= PI.
Proof.
  destruct (@cos_session_keeps_sail_in_range
              (MainScriptCos.KeyDown "ArrowUp"
               :: MainScriptCos.AnimationFrame :: nil)
              (mkWorld initialEnvironment WindScenario.sailingBoat))
    as [(w' & Hrun & Hin & _) _].
  - cbn. pose proof PI_RGT_0. lra.
  - exists w'. split; assumption.
Defined.

End SessionsCos.

(** ** The forces and the step of the thrust-driven boat ([unnamed/part_001]) *)

Module ThrustStep.

Import ThrustModel ThrustScene.

(** The step of a loaded boat, field by field. *)
Lemma update_loaded (b : Boat) (deltaTime : R)
      (o : Object3D.t) (v a : Vector3.t) :
  boat b = Some o ->
  velocity b = Some v ->
  acceleration b = Some a ->
  let acc := Vector3.divideScalar (totalForce b o v) (mass b) in
  let vel1 := steppedVelocity b acc v deltaTime in
  let pos1 := steppedPosition o vel1 deltaTime in
  let torque' := thrust b * 1 * sin (rotationSpeed b) in
  let spin :=
    (angularVelocity b + torque' / inertia b * deltaTime)
    * angularDampingFactor in
  update b deltaTime
  = Normal
      (mkBoat (mass b) (volume b) (waterDensity b) (inertia b)
              spin torque' (thrust b) (rotationSpeed b)
              (radius b) (collided b)
              (Some (Object3D.setRotationY
                       (Object3D.setPosition o (fst (floorClamp pos1 vel1)))
                       (Euler.y (Object3D.rotation o) + spin * deltaTime)))
              (Some (snd (floorClamp pos1 vel1)))
              (Some acc)).
Proof.
  intros Hb Hv Ha acc vel1 pos1 torque' spin.
  unfold update. rewrite Hb, Hv, Ha. cbn [deref bind].
  fold acc. fold vel1. fold pos1.
  destruct (floorClamp pos1 vel1) as [pos2 vel2]. reflexivity.
Qed.

Lemma thrust_along_heading (a T : R) :
  applyQuaternion (Vector3.mk 0 0 T)
                  (Quaternion.setFromEuler (Euler.mk 0 a 0))
  = Vector3.mk (T * sin a) 0 (T * cos a).
Proof.
  destruct (sin_half_cos_half a) as (Hsin & Hcos & _).
  rewrite <- Hsin, <- Hcos.
  unfold applyQuaternion, Quaternion.setFromEuler.
  cbn [Vector3.x Vector3.y Vector3.z Euler.x Euler.y Euler.z
       Quaternion.x Quaternion.y Quaternion.z Quaternion.w].
  replace (0 / 2) with 0 by field. rewrite sin_0, cos_0.
  f_equal; ring.
Qed.

Lemma no_thrust_no_force (q : Quaternion.t) :
  applyQuaternion (Vector3.mk 0 0 0) q = Vector3.mk 0 0 0.
Proof.
  unfold applyQuaternion. cbn [Vector3.x Vector3.y Vector3.z]. f_equal; ring.
Qed.

(** X10.  The force on a boat turned by [a] about the vertical axis only: the
    thrust pushes along the horizontal heading (sin a, 0, cos a) and has no
    vertical part; the vertical force is buoyancy minus weight minus drag;
    the drag is quadratic, 0.1 * speed * velocity. *)
Theorem totalForce_yaw_only (b : Boat) (o : Object3D.t) (v : Vector3.t) :
  Euler.x (Object3D.rotation o) = 0 ->
  Euler.z (Object3D.rotation o) = 0 ->
  let a := Euler.y (Object3D.rotation o) in
  let speed := Vector3.length v in
  totalForce b o v
  = Vector3.mk
      (thrust b * sin a - 1 / 10 * speed * Vector3.x v)
      (waterDensity b * submergedVolume b o * g - mass b * g
       - 1 / 10 * speed * Vector3.y v)
      (thrust b * cos a - 1 / 10 * speed * Vector3.z v).
Proof.
  intros Hx Hz a speed.
  unfold totalForce, Object3D.quaternion.
  replace (Object3D.rotation o) with (Euler.mk 0 a 0)
    by (subst a; destruct (Object3D.rotation o); cbn in *; subst; reflexivity).
  rewrite thrust_along_heading. fold speed.
  unfold Vector3.add, Vector3.multiplyScalar, Vector3.clone, Vector3.zero.
  cbn [Vector3.x Vector3.y Vector3.z]. f_equal; ring.
Qed.

Lemma length_3_0_4 : Vector3.length (Vector3.mk 3 0 4) = 5.
Proof.
  unfold Vector3.length; cbn [Vector3.x Vector3.y Vector3.z].
  replace (3 * 3 + 0 * 0 + 4 * 4) with (5 * 5) by ring.
  apply sqrt_square; lra.
Qed.

Lemma totalForce_yaw_only_witness :
  totalForce ThrustScenario.cruisingBoat ThrustScenario.steeringNode
             (Vector3.mk 3 0 4)
  = Vector3.mk (97 / 2) (- 14700) (- 2).
Proof.
  rewrite (@totalForce_yaw_only
             ThrustScenario.cruisingBoat ThrustScenario.steeringNode
             (Vector3.mk 3 0 4) eq_refl eq_refl).
  rewrite length_3_0_4. unfold submergedVolume, g.
  cbn [ThrustScenario.cruisingBoat ThrustScenario.steeringNode thrust mass
       waterDensity volume Object3D.rotation Object3D.position Euler.y
       Vector3.x Vector3.y Vector3.z].
  rewrite sin_PI2, cos_PI2. rewrite Rmax_right by lra.
  f_equal; field.
Defined.

Lemma length_of_zero : Vector3.length (Vector3.mk 0 0 0) = 0.
Proof. apply length_zero_iff. reflexivity. Qed.

(** X11.  Where the boat floats.  A loaded boat of positive mass at rest with the
    engine off, at or above the floor, whose displaced water weighs what the boat weighs
    (waterDensity * volume * (1 - y / 2) = mass), stays where it is: a step
    leaves position and velocity as they are and the acceleration is zero. *)
Theorem update_at_equilibrium (b : Boat) (deltaTime : R)
        (o : Object3D.t) (a : Vector3.t) :
  boat b = Some o ->
  velocity b = Some (Vector3.mk 0 0 0) ->
  acceleration b = Some a ->
  thrust b = 0 ->
  0 < mass b ->
  0 <= volume b * (1 - Vector3.y (Object3D.position o) / 2) ->
  waterDensity b * (volume b * (1 - Vector3.y (Object3D.position o) / 2))
  = mass b ->
  -4 <= Vector3.y (Object3D.position o) ->
  exists b' o',
    update b deltaTime = Normal b'
    /\ boat b' = Some o'
    /\ Object3D.position o' = Object3D.position o
    /\ velocity b' = Some (Vector3.mk 0 0 0)
    /\ acceleration b' = Some (Vector3.mk 0 0 0).
Proof.
  intros Hb Hv Ha Ht Hmass Hsub Hbal Hfloor.
  rewrite (update_loaded b deltaTime Hb Hv Ha).
  assert (Hforce : totalForce b o (Vector3.mk 0 0 0) = Vector3.mk 0 0 0).
  { unfold totalForce, submergedVolume. rewrite Ht, no_thrust_no_force.
    rewrite Rmax_right by exact Hsub. rewrite length_of_zero.
    unfold Vector3.add, Vector3.multiplyScalar, Vector3.clone, Vector3.zero.
    cbn [Vector3.x Vector3.y Vector3.z]. rewrite Hbal. f_equal; ring. }
  rewrite Hforce.
  assert (Hacc : Vector3.divideScalar (Vector3.mk 0 0 0) (mass b)
                 = Vector3.mk 0 0 0).
  { unfold Vector3.divideScalar, Vector3.multiplyScalar.
    cbn [Vector3.x Vector3.y Vector3.z]. f_equal; ring. }
  rewrite Hacc.
  assert (Hvel : steppedVelocity b (Vector3.mk 0 0 0) (Vector3.mk 0 0 0)
                                 deltaTime = Vector3.mk 0 0 0).
  { unfold steppedVelocity. rewrite Ht.
    destruct (Reqb 0 0) eqn:E; [| apply Reqb_false in E; lra].
    unfold Vector3.add, Vector3.multiplyScalar, Vector3.clone.
    cbn [Vector3.x Vector3.y Vector3.z]. f_equal; ring. }
  rewrite Hvel.
  assert (Hpos : steppedPosition o (Vector3.mk 0 0 0) deltaTime
                 = Object3D.position o).
  { unfold steppedPosition, Vector3.add, Vector3.multiplyScalar, Vector3.clone.
    cbn [Vector3.x Vector3.y Vector3.z].
    destruct (Object3D.position o) as [px py pz].
    cbn [Vector3.x Vector3.y Vector3.z]. f_equal; ring. }
  rewrite Hpos.
  destruct (Buoyancy.floorClamp_floor (Object3D.position o) (Vector3.mk 0 0 0))
    as (_ & _ & Hkeep).
  rewrite (Hkeep Hfloor). cbn [fst snd].
  eexists _, _. split; [reflexivity |]. cbn [boat velocity acceleration].
  split; [reflexivity |].
  cbn [Object3D.position Object3D.setRotationY Object3D.setPosition].
  repeat split.
Qed.

Lemma update_at_equilibrium_witness :
  exists b' o',
    update ThrustScenario.floatingBoat (16 / 1000) = Normal b'
    /\ boat b' = Some o'
    /\ Object3D.position o' = Vector3.mk (-10) (-2) (-10)
    /\ velocity b' = Some (Vector3.mk 0 0 0).
Proof.
  destruct (@update_at_equilibrium
              ThrustScenario.floatingBoat (16 / 1000)
              ThrustScenario.floatingNode (Vector3.mk 0 0 0)
              eq_refl eq_refl eq_refl eq_refl)
    as (b' & o' & Hu & Hb & Hp & Hv & _).
  - cbn. lra.
  - cbn. lra.
  - cbn. lra.
  - cbn. lra.
  - exists b', o'. repeat split; assumption.
Defined.

Lemma floorClamp_horizontal (pos vel : Vector3.t) :
  Vector3.x (snd (floorClamp pos vel)) = Vector3.x vel
  /\ Vector3.z (snd (floorClamp pos vel)) = Vector3.z vel
  /\ Vector3.x (fst (floorClamp pos vel)) = Vector3.x pos
  /\ Vector3.z (fst (floorClamp pos vel)) = Vector3.z pos.
Proof.
  unfold floorClamp. destruct (Rltb (Vector3.y pos) (-4)); cbn; auto.
Qed.

(** X12.  Coasting.  With the engine off a step multiplies each horizontal
    component of the velocity by 0.98 * (1 - speed * deltaTime / (10 * mass)).
    As long as the time step is not negative and speed * deltaTime is at
    most 20 times the (positive) mass, no horizontal component grows, and
    each shrinks by 2 per cent at least. *)
Theorem update_coasting (b : Boat) (deltaTime : R)
        (o : Object3D.t) (v a : Vector3.t) :
  boat b = Some o ->
  velocity b = Some v ->
  acceleration b = Some a ->
  thrust b = 0 ->
  0 < mass b ->
  0 <= deltaTime ->
  Vector3.length v * deltaTime <= 20 * mass b ->
  let factor :=
    linearDamping * (1 - Vector3.length v * deltaTime / (10 * mass b)) in
  exists b' v',
    update b deltaTime = Normal b'
    /\ velocity b' = Some v'
    /\ Vector3.x v' = factor * Vector3.x v
    /\ Vector3.z v' = factor * Vector3.z v
    /\ Rabs (Vector3.x v') <= linearDamping * Rabs (Vector3.x v)
    /\ Rabs (Vector3.z v') <= linearDamping * Rabs (Vector3.z v).
Proof.
  intros Hb Hv Ha Ht Hm Hdt Hstep factor.
  rewrite (update_loaded b deltaTime Hb Hv Ha).
  eexists _, _. split; [reflexivity |]. cbn [velocity]. split; [reflexivity |].
  match goal with
  | |- context [floorClamp ?p ?q] =>
      destruct (floorClamp_horizontal p q) as (-> & -> & _)
  end.
  pose proof (length_nonnegative v) as Hlen.
  set (speed := Vector3.length v) in *.
  assert (Ex : Vector3.x
                 (steppedVelocity
                    b (Vector3.divideScalar (totalForce b o v) (mass b))
                    v deltaTime) = factor * Vector3.x v).
  { unfold steppedVelocity, totalForce. rewrite Ht, no_thrust_no_force.
    destruct (Reqb 0 0) eqn:E; [| apply Reqb_false in E; lra].
    fold speed. subst factor.
    unfold Vector3.divideScalar, Vector3.add, Vector3.multiplyScalar,
      Vector3.clone, Vector3.zero.
    cbn [Vector3.x Vector3.y Vector3.z]. field. lra. }
  assert (Ez : Vector3.z
                 (steppedVelocity
                    b (Vector3.divideScalar (totalForce b o v) (mass b))
                    v deltaTime) = factor * Vector3.z v).
  { unfold steppedVelocity, totalForce. rewrite Ht, no_thrust_no_force.
    destruct (Reqb 0 0) eqn:E; [| apply Reqb_false in E; lra].
    fold speed. subst factor.
    unfold Vector3.divideScalar, Vector3.add, Vector3.multiplyScalar,
      Vector3.clone, Vector3.zero.
    cbn [Vector3.x Vector3.y Vector3.z]. field. lra. }
  rewrite Ex, Ez. split; [reflexivity |]. split; [reflexivity |].
  assert (Hk : 0 <= speed * deltaTime / (10 * mass b) <= 2).
  { split.
    - apply Rmult_le_pos; [nra |]. apply Rlt_le, Rinv_0_lt_compat. lra.
    - apply Rmult_le_reg_r with (r := 10 * mass b); [lra |].
      replace (speed * deltaTime / (10 * mass b) * (10 * mass b))
        with (speed * deltaTime) by (field; lra).
      lra. }
  assert (Hf : Rabs factor <= linearDamping).
  { subst factor. unfold linearDamping in *.
    rewrite Rabs_mult. rewrite (Rabs_pos_eq (98 / 100)) by lra.
    assert (Rabs (1 - speed * deltaTime / (10 * mass b)) <= 1)
      by (apply Rabs_le; lra).
    nra. }
  rewrite !Rabs_mult.
  pose proof (Rabs_pos (Vector3.x v)). pose proof (Rabs_pos (Vector3.z v)).
  split; apply Rmult_le_compat_r; assumption.
Qed.

Lemma update_coasting_witness :
  exists b' v',
    update ThrustScenario.coastingBoat (1 / 10) = Normal b'
    /\ velocity b' = Some v'
    /\ Vector3.x v' = 98 / 100 * (1 - 5 * (1 / 10) / (10 * 3000)) * 3
    /\ Vector3.z v' = 98 / 100 * (1 - 5 * (1 / 10) / (10 * 3000)) * 4
    /\ Rabs (Vector3.x v') <= 98 / 100 * Rabs 3
    /\ Rabs (Vector3.z v') <= 98 / 100 * Rabs 4.
Proof.
  destruct (@update_coasting
              ThrustScenario.coastingBoat (1 / 10)
              ThrustScenario.steeringNode
              (Vector3.mk 3 0 4) (Vector3.mk 0 0 0)
              eq_refl eq_refl eq_refl eq_refl)
    as (b' & v' & Hu & Hv & Hx & Hz & Hax & Haz).
  - cbn. lra.
  - lra.
  - rewrite length_3_0_4. cbn. lra.
  - rewrite length_3_0_4 in Hx, Hz.
    exists b', v'. repeat split; assumption.
Defined.

End ThrustStep.

(** ** Collision detection ([unnamed/part_001]) *)

Module Detection.

Import ThrustModel ThrustScene.

(** Everything [handleCollision] leaves alone on a loaded pair. *)
Lemma handleCollision_frame (b : Boat) (s : Sphere)
      (o : Object3D.t) (v : Vector3.t) :
  boat b = Some o ->
  velocity b = Some v ->
  exists v' sv',
    handleCollision b s
    = Normal (setVelocity b v', setSphereVelocity s sv').
Proof.
  intros Hb Hv. unfold handleCollision. rewrite Hb, Hv. cbn [deref bind].
  match goal with |- context [Rgtb ?x 0] => destruct (Rgtb x 0) end.
  - exists v, (svelocity s). destruct b, s. cbn in *. subst. reflexivity.
  - eexists _, _. reflexivity.
Qed.

(** [checkCollision] on a loaded boat, spelled out. *)
Lemma checkCollision_loaded (b : Boat) (s : Sphere)
        (o : Object3D.t) (v : Vector3.t) :
  boat b = Some o ->
  velocity b = Some v ->
  let distance :=
    Vector3.distanceTo (Object3D.position o) (Object3D.position (object s)) in
  let reach := radius b + 50 + sradius s in
  exists v' sv',
    checkCollision b s
    = Normal (setVelocity (setCollided b (Rltb distance reach)) v',
              setSphereVelocity s sv')
    /\ (reach <= distance -> v' = v /\ sv' = svelocity s).
Proof.
  intros Hb Hv distance reach.
  unfold checkCollision. rewrite Hb. cbn [deref bind].
  fold distance. fold reach.
  destruct (Rltb distance reach) eqn:E.
  - destruct (@handleCollision_frame (setCollided b true) s o v Hb Hv)
      as (v' & sv' & H).
    exists v', sv'. split; [exact H |].
    apply Rltb_true in E. intros Hfar. lra.
  - exists v, (svelocity s). split; [| auto].
    destruct b, s. cbn in *. subst. reflexivity.
Qed.

(** X13.  [checkCollision] on a loaded boat completes.  It sets [collided] to the
    outcome of the distance test, whatever the flag was; it moves neither
    body and changes no mass, radius or other setting; and when the test
    fails both velocities are left as they were. *)
Theorem checkCollision_detects (b : Boat) (s : Sphere)
        (o : Object3D.t) (v : Vector3.t) :
  boat b = Some o ->
  velocity b = Some v ->
  let distance :=
    Vector3.distanceTo (Object3D.position o) (Object3D.position (object s)) in
  let reach := radius b + 50 + sradius s in
  exists v' sv',
    checkCollision b s
    = Normal (setVelocity (setCollided b (Rltb distance reach)) v',
              setSphereVelocity s sv')
    /\ (reach <= distance -> v' = v /\ sv' = svelocity s).
Proof. intros Hb Hv. exact (checkCollision_loaded b s Hb Hv). Qed.

Lemma checkCollision_detects_witness :
  exists v' sv',
    checkCollision Scenario.bodyA Scenario.sphere
    = Normal
        (setVelocity
           (setCollided
              Scenario.bodyA
              (Rltb (Vector3.distanceTo (Vector3.mk 0 0 110)
                                        (Vector3.mk 0 0 100))
                    (5 + 50 + 20)))
           v',
         setSphereVelocity Scenario.sphere sv').
Proof.
  destruct (@checkCollision_detects
              Scenario.bodyA Scenario.sphere
              (Scenario.node (Vector3.mk 0 0 110)) (Vector3.mk 0 0 (-5))
              eq_refl eq_refl)
    as (v' & sv' & H & _).
  exists v', sv'. exact H.
Defined.

(** X14.  Two bodies at the same place.  When the centres of the loaded boat and
    of the sphere coincide (masses positive) the normal is the zero vector
    and [handleCollision] returns both bodies as they came: no velocity
    changes and nothing is divided by the zero distance. *)
Theorem handleCollision_same_place (b : Boat) (s : Sphere)
        (o : Object3D.t) (v : Vector3.t) :
  boat b = Some o ->
  velocity b = Some v ->
  Object3D.position (object s) = Object3D.position o ->
  0 < mass b ->
  0 < smass s ->
  collisionNormal (Object3D.position o) (Object3D.position (object s))
  = Vector3.mk 0 0 0
  /\ handleCollision b s = Normal (b, s).
Proof.
  intros Hb Hv Hsame Hma Hmb.
  assert (Hn : collisionNormal (Object3D.position o)
                               (Object3D.position (object s))
               = Vector3.mk 0 0 0).
  { rewrite Hsame. unfold collisionNormal.
    assert (Hz : Vector3.subVectors (Object3D.position o) (Object3D.position o)
                 = Vector3.mk 0 0 0)
      by (unfold Vector3.subVectors; f_equal; ring).
    rewrite Hz. unfold Vector3.normalize.
    rewrite ThrustStep.length_of_zero.
    destruct (Reqb 0 0) eqn:E; [| apply Reqb_false in E; lra].
    unfold Vector3.divideScalar, Vector3.multiplyScalar.
    cbn [Vector3.x Vector3.y Vector3.z]. f_equal; ring. }
  split; [exact Hn |].
  unfold handleCollision. rewrite Hb, Hv. cbn [deref bind].
  change (Vector3.normalize
            (Vector3.subVectors (Object3D.position o)
                                (Object3D.position (object s))))
    with (collisionNormal (Object3D.position o)
                          (Object3D.position (object s))).
  rewrite Hn.
  match goal with |- context [Rgtb ?x 0] => destruct (Rgtb x 0) eqn:E end.
  - reflexivity.
  - assert (Hv' : forall k m : R,
               Vector3.add
                 v (Vector3.divideScalar
                      (Vector3.multiplyScalar (Vector3.mk 0 0 0) k) m) = v).
    { intros k m. destruct v as [vx vy vz].
      unfold Vector3.add, Vector3.divideScalar, Vector3.multiplyScalar.
      cbn [Vector3.x Vector3.y Vector3.z]. f_equal; ring. }
    assert (Hs' : forall k m n : R,
               Vector3.sub
                 (svelocity s)
                 (Vector3.divideScalar
                    (Vector3.divideScalar
                       (Vector3.multiplyScalar (Vector3.mk 0 0 0) k) m) n)
               = svelocity s).
    { intros k m n. destruct (svelocity s) as [vx vy vz].
      unfold Vector3.sub, Vector3.divideScalar, Vector3.multiplyScalar.
      cbn [Vector3.x Vector3.y Vector3.z]. f_equal; ring. }
    rewrite Hv', Hs'.
    destruct b, s. cbn in *. subst. reflexivity.
Qed.

Lemma handleCollision_same_place_witness :
  handleCollision
    Scenario.bodyA
    (newSphere (Vector3.mk 0 0 110) 20 500)
  = Normal (Scenario.bodyA, newSphere (Vector3.mk 0 0 110) 20 500).
Proof.
  apply (@handleCollision_same_place
           Scenario.bodyA (newSphere (Vector3.mk 0 0 110) 20 500)
           (Scenario.node (Vector3.mk 0 0 110)) (Vector3.mk 0 0 (-5))).
  - reflexivity.
  - reflexivity.
  - reflexivity.
  - cbn. lra.
  - cbn. lra.
Defined.

End Detection.

(** ** Frame after frame ([unnamed/part_001], [animate]) *)

Module Frames.

Import ThrustModel ThrustScene.

(** One frame of a loaded boat: the step of [update], then the flag and the
    velocities as [checkCollision] leaves them. *)
Lemma animate_loaded (b : Boat) (s : Sphere) (deltaTime : R)
      (o : Object3D.t) (v a : Vector3.t) :
  boat b = Some o ->
  velocity b = Some v ->
  acceleration b = Some a ->
  exists b1 c v' sv',
    update b deltaTime = Normal b1
    /\ animate b s deltaTime
       = Normal (setVelocity (setCollided b1 c) v',
                 setSphereVelocity (sphereUpdate s deltaTime) sv').
Proof.
  intros Hb Hv Ha.
  pose proof (ThrustStep.update_loaded b deltaTime Hb Hv Ha) as Hu.
  cbv zeta in Hu. unfold animate. rewrite Hu. cbn [bind].
  match goal with
  | |- context [checkCollision ?b1 ?s1] =>
      destruct (@Detection.checkCollision_loaded b1 s1 _ _ eq_refl eq_refl)
        as (v' & sv' & Hc & _)
  end.
  eexists _, _, v', sv'. split; [reflexivity | exact Hc].
Qed.

(** What a run of frames keeps and does on a loaded boat. *)
Lemma frames_loaded (deltaTimes : list R) :
  forall (b : Boat) (s : Sphere) (o : Object3D.t) (v a : Vector3.t),
    boat b = Some o ->
    velocity b = Some v ->
    acceleration b = Some a ->
    exists b' s' o' v' a',
      frames b s deltaTimes = Normal (b', s')
      /\ (boat b' = Some o' /\ velocity b' = Some v'
          /\ acceleration b' = Some a')
      /\ (mass b' = mass b /\ volume b' = volume b
          /\ waterDensity b' = waterDensity b /\ inertia b' = inertia b
          /\ thrust b' = thrust b /\ rotationSpeed b' = rotationSpeed b
          /\ radius b' = radius b)
      /\ (sradius s' = sradius s /\ smass s' = smass s)
      /\ Object3D.scale o' = Object3D.scale o
      /\ (thrust b = 0 ->
          angularVelocity b'
          = angularVelocity b * angularDampingFactor ^ List.length deltaTimes
          /\ (deltaTimes <> nil -> torque b' = 0)
          /\ (angularVelocity b = 0 ->
              Object3D.rotation o' = Object3D.rotation o)).
Proof.
  induction deltaTimes as [| deltaTime rest IH]; intros b s o v a Hb Hv Ha.
  - exists b, s, o, v, a. cbn [frames List.length pow].
    split; [reflexivity |]. split; [auto |].
    split; [repeat split |]. split; [split; reflexivity |].
    split; [reflexivity |].
    intros _. split; [ring |]. split; [intros Hnil; contradiction | auto].
  - destruct (animate_loaded b s deltaTime Hb Hv Ha)
      as (b1 & c & v1 & sv1 & Hu & Hanim).
    pose proof (ThrustStep.update_loaded b deltaTime Hb Hv Ha) as Hu'.
    cbv zeta in Hu'. rewrite Hu' in Hu. injection Hu as Hb1.
    cbn [frames]. rewrite Hanim. cbn [bind fst snd].
    match type of Hb1 with
    | mkBoat _ _ _ _ ?spin ?tq _ _ _ _ (Some ?o1) (Some ?vel) (Some ?acc) = _ =>
        destruct (IH (setVelocity (setCollided b1 c) v1)
                     (setSphereVelocity (sphereUpdate s deltaTime) sv1)
                     o1 v1 acc)
          as (b' & s' & o' & v' & a' & Hrun & Hready & Hcfg & Hsph & Hscale
              & Hoff);
          [ rewrite <- Hb1; reflexivity
          | reflexivity
          | rewrite <- Hb1; reflexivity
          | ]
    end.
    exists b', s', o', v', a'. split; [exact Hrun |]. split; [exact Hready |].
    rewrite <- Hb1 in Hcfg, Hoff.
    cbn [setVelocity setCollided mass volume waterDensity inertia thrust
         rotationSpeed radius angularVelocity torque] in Hcfg, Hoff.
    split; [exact Hcfg |].
    cbn [setSphereVelocity sphereUpdate sradius smass] in Hsph.
    split; [exact Hsph |].
    cbn [Object3D.scale Object3D.setRotationY Object3D.setPosition] in Hscale.
    split; [exact Hscale |].
    intros Ht. destruct (Hoff Ht) as (Hspin & Htorque & Hrot).
    rewrite Ht in Hspin, Hrot.
    assert (Hdecay : (angularVelocity b
                      + 0 * 1 * sin (rotationSpeed b) / inertia b * deltaTime)
                     * angularDampingFactor
                     = angularVelocity b * angularDampingFactor)
      by (unfold Rdiv; ring).
    rewrite Hdecay in Hspin, Hrot.
    split; [| split].
    + rewrite Hspin. cbn [List.length pow]. ring.
    + intros _. destruct rest as [| d rest'].
      * cbn [frames] in Hrun. injection Hrun as <- _.
        cbn [setVelocity setCollided torque]. rewrite <- Hb1.
        cbn [torque]. rewrite Ht. ring.
      * apply Htorque. discriminate.
    + intros Hstill. rewrite Hrot by (rewrite Hstill; ring).
      rewrite Hstill.
      cbn [Object3D.rotation Object3D.setRotationY Object3D.setPosition].
      destruct (Object3D.rotation o) as [rx ry rz].
      unfold Euler.setY. cbn [Euler.x Euler.y Euler.z]. f_equal. ring.
Qed.

(** X15.  Once the asset is loaded a run of frames never throws and the
    boat stays loaded; no frame changes the mass, the volume, the water
    density, the inertia, the thrust, the steering input, the radius or the
    scale of the boat, nor the radius or the mass of the sphere. *)
Theorem frames_keep_the_boat_loaded
        (deltaTimes : list R) (b : Boat) (s : Sphere)
        (o : Object3D.t) (v a : Vector3.t) :
  boat b = Some o ->
  velocity b = Some v ->
  acceleration b = Some a ->
  exists b' s' o',
    frames b s deltaTimes = Normal (b', s')
    /\ Ready b'
    /\ boat b' = Some o'
    /\ (mass b' = mass b /\ volume b' = volume b
        /\ waterDensity b' = waterDensity b /\ inertia b' = inertia b
        /\ thrust b' = thrust b /\ rotationSpeed b' = rotationSpeed b
        /\ radius b' = radius b)
    /\ (sradius s' = sradius s /\ smass s' = smass s)
    /\ Object3D.scale o' = Object3D.scale o.
Proof.
  intros Hb Hv Ha.
  destruct (@frames_loaded deltaTimes b s o v a Hb Hv Ha)
    as (b' & s' & o' & v' & a' & Hrun & (Hb' & Hv' & Ha') & Hcfg & Hsph
        & Hscale & _).
  exists b', s', o'. split; [exact Hrun |]. split.
  - exists o', v', a'. auto.
  - split; [exact Hb' |]. auto.
Qed.

Lemma frames_keep_the_boat_loaded_witness :
  exists b' s' o',
    frames ThrustScenario.cruisingBoat Scenario.sphere
           (16 / 1000 :: 17 / 1000 :: nil) = Normal (b', s')
    /\ Ready b'
    /\ boat b' = Some o'
    /\ mass b' = 3000
    /\ thrust b' = 50
    /\ Object3D.scale o' = Vector3.mk (2 / 10) (2 / 10) (2 / 10).
Proof.
  destruct (@frames_keep_the_boat_loaded
              (16 / 1000 :: 17 / 1000 :: nil)
              ThrustScenario.cruisingBoat Scenario.sphere
              ThrustScenario.steeringNode
              (Vector3.mk 3 0 4) (Vector3.mk 0 0 0)
              eq_refl eq_refl eq_refl)
    as (b' & s' & o' & Hrun & Hr & Hb & (Hm & _ & _ & _ & Ht & _) & _ & Hs).
  exists b', s', o'. repeat split; assumption.
Defined.

(** X16.  Steering needs thrust.  With the engine off (thrust = 0, inertia not
    zero) the steering input has no effect: the torque of every frame is
    zero, each frame multiplies the angular velocity by 0.95 whatever the
    time step, and a boat that was not turning keeps its orientation. *)
Theorem frames_engine_off
        (deltaTimes : list R) (b : Boat) (s : Sphere)
        (o : Object3D.t) (v a : Vector3.t) :
  boat b = Some o ->
  velocity b = Some v ->
  acceleration b = Some a ->
  thrust b = 0 ->
  inertia b <> 0 ->
  exists b' s' o',
    frames b s deltaTimes = Normal (b', s')
    /\ boat b' = Some o'
    /\ angularVelocity b'
       = angularVelocity b * angularDampingFactor ^ List.length deltaTimes
    /\ Rabs (angularVelocity b') <= Rabs (angularVelocity b)
    /\ (deltaTimes <> nil -> torque b' = 0)
    /\ (angularVelocity b = 0 -> Object3D.rotation o' = Object3D.rotation o).
Proof.
  intros Hb Hv Ha Ht _.
  destruct (@frames_loaded deltaTimes b s o v a Hb Hv Ha)
    as (b' & s' & o' & v' & a' & Hrun & (Hb' & _) & _ & _ & _ & Hoff).
  destruct (Hoff Ht) as (Hspin & Htorque & Hrot).
  exists b', s', o'. split; [exact Hrun |]. split; [exact Hb' |].
  split; [exact Hspin |]. split; [| split; assumption].
  rewrite Hspin, Rabs_mult.
  assert (Hpow : Rabs (angularDampingFactor ^ List.length deltaTimes) <= 1).
  { rewrite <- RPow_abs. unfold angularDampingFactor.
    rewrite (Rabs_pos_eq (95 / 100)) by lra.
    generalize (List.length deltaTimes) as n.
    induction n as [| n IHn]; cbn [pow]; [lra |].
    assert (0 <= (95 / 100) ^ n) by (apply pow_le; lra). nra. }
  pose proof (Rabs_pos (angularVelocity b)).
  pose proof (Rabs_pos (angularDampingFactor ^ List.length deltaTimes)).
  nra.
Qed.

Lemma frames_engine_off_witness :
  exists b' s' o',
    frames ThrustScenario.coastingBoat Scenario.sphere
           (16 / 1000 :: 17 / 1000 :: nil) = Normal (b', s')
    /\ boat b' = Some o'
    /\ angularVelocity b' = 2 * ((95 / 100) * ((95 / 100) * 1))
    /\ Rabs (angularVelocity b') <= Rabs 2
    /\ torque b' = 0.
Proof.
  destruct (@frames_engine_off
              (16 / 1000 :: 17 / 1000 :: nil)
              ThrustScenario.coastingBoat Scenario.sphere
              ThrustScenario.steeringNode
              (Vector3.mk 3 0 4) (Vector3.mk 0 0 0)
              eq_refl eq_refl eq_refl eq_refl)
    as (b' & s' & o' & Hrun & Hb & Hspin & Habs & Htorque & _).
  - cbn. lra.
  - exists b', s', o'. split; [exact Hrun |]. split; [exact Hb |].
    split; [exact Hspin |]. split; [exact Habs |].
    apply Htorque. discriminate.
Defined.

End Frames.

(** ** The sphere, the volume and the launch ([unnamed/part_001]) *)

Module Scene.

Import ThrustModel ThrustScene.

Lemma sphereUpdate_coasting (s : Sphere) (deltaTime : R) :
  sacceleration s = Vector3.mk 0 0 0 ->
  svelocity (sphereUpdate s deltaTime) = svelocity s
  /\ sacceleration (sphereUpdate s deltaTime) = Vector3.mk 0 0 0
  /\ Object3D.position (object (sphereUpdate s deltaTime))
     = Vector3.add (Object3D.position (object s))
                   (Vector3.multiplyScalar (svelocity s) deltaTime).
Proof.
  intros Ha. unfold sphereUpdate. rewrite Ha.
  cbn [svelocity sacceleration object Object3D.position Object3D.setPosition].
  assert (Hv : Vector3.add (svelocity s)
                           (Vector3.multiplyScalar
                              (Vector3.clone (Vector3.mk 0 0 0)) deltaTime)
               = svelocity s).
  { destruct (svelocity s) as [vx vy vz].
    unfold Vector3.add, Vector3.multiplyScalar, Vector3.clone.
    cbn [Vector3.x Vector3.y Vector3.z]. f_equal; ring. }
  rewrite Hv. repeat split.
Qed.

Lemma sphereUpdates_coasting (deltaTimes : list R) :
  forall s : Sphere,
    sacceleration s = Vector3.mk 0 0 0 ->
    svelocity (sphereUpdates s deltaTimes) = svelocity s
    /\ sacceleration (sphereUpdates s deltaTimes) = Vector3.mk 0 0 0
    /\ Object3D.position (object (sphereUpdates s deltaTimes))
       = Vector3.add (Object3D.position (object s))
                     (Vector3.multiplyScalar
                        (svelocity s) (ThrustScenario.total deltaTimes)).
Proof.
  induction deltaTimes as [| d rest IH]; intros s Ha.
  - cbn [sphereUpdates ThrustScenario.total fold_right].
    split; [reflexivity |]. split; [exact Ha |].
    destruct (Object3D.position (object s)) as [px py pz].
    unfold Vector3.add, Vector3.multiplyScalar.
    cbn [Vector3.x Vector3.y Vector3.z]. f_equal; ring.
  - destruct (sphereUpdate_coasting s d Ha) as (Hv & Ha1 & Hp).
    destruct (IH (sphereUpdate s d) Ha1) as (Hv' & Ha' & Hp').
    cbn [sphereUpdates ThrustScenario.total fold_right].
    rewrite Hv', Ha', Hp', Hv, Hp. repeat split.
    unfold Vector3.add, Vector3.multiplyScalar, ThrustScenario.total.
    cbn [Vector3.x Vector3.y Vector3.z]. f_equal; ring.
Qed.

Lemma sphereUpdates_settings (deltaTimes : list R) :
  forall s : Sphere,
    sradius (sphereUpdates s deltaTimes) = sradius s
    /\ smass (sphereUpdates s deltaTimes) = smass s.
Proof.
  induction deltaTimes as [| d rest IH]; intros s.
  - split; reflexivity.
  - cbn [sphereUpdates]. destruct (IH (sphereUpdate s d)) as [-> ->].
    split; reflexivity.
Qed.

(** X17.  The sphere coasts.  [Sphere.update] uses the acceleration once and then
    clears it: after a first step of length d the velocity is
    v + acceleration * d for good, and after any further steps the sphere
    sits at its first position plus that velocity times the whole time
    elapsed, with its radius and mass unchanged. *)
Theorem sphere_coasts (s : Sphere) (d : R) (rest : list R) :
  let v' :=
    Vector3.add (svelocity s) (Vector3.multiplyScalar (sacceleration s) d) in
  let s' := sphereUpdates s (d :: rest) in
  svelocity s' = v'
  /\ sacceleration s' = Vector3.mk 0 0 0
  /\ Object3D.position (object s')
     = Vector3.add (Object3D.position (object s))
                   (Vector3.multiplyScalar
                      v' (ThrustScenario.total (d :: rest)))
  /\ sradius s' = sradius s
  /\ smass s' = smass s.
Proof.
  intros v' s'. subst s'. cbn [sphereUpdates].
  destruct (@sphereUpdates_coasting rest (sphereUpdate s d) eq_refl)
    as (Hv & Ha & Hp).
  rewrite Hv, Ha, Hp.
  cbn [sphereUpdate svelocity object Object3D.position Object3D.setPosition].
  unfold Vector3.clone. fold v'.
  split; [reflexivity |]. split; [reflexivity |]. split.
  - unfold Vector3.add, Vector3.multiplyScalar, ThrustScenario.total.
    cbn [Vector3.x Vector3.y Vector3.z fold_right]. f_equal; ring.
  - destruct (sphereUpdates_settings rest (sphereUpdate s d)) as [-> ->].
    split; reflexivity.
Qed.

(** X18.  [setVolume] needs the asset, [setMass] does not: before the load
    [setVolume] throws a [TypeError] while [setMass] completes.  On a loaded
    boat [setVolume] completes, stores the volume, scales the model by it
    on all three axes, and leaves position, orientation, velocity, mass and
    inertia alone; for a volume that is not negative the submerged volume
    then is that volume times max(0, 1 - y / 2). *)
Theorem setVolume_needs_the_asset (b : Boat) (newVolume : R) :
  (boat b = None ->
   setVolume b newVolume = Throw TypeError
   /\ exists b', setMass b newVolume = Normal b')
  /\ (forall o,
         boat b = Some o ->
         exists b' o',
           setVolume b newVolume = Normal b'
           /\ boat b' = Some o'
           /\ volume b' = newVolume
           /\ Object3D.scale o' = Vector3.mk newVolume newVolume newVolume
           /\ Object3D.position o' = Object3D.position o
           /\ Object3D.rotation o' = Object3D.rotation o
           /\ velocity b' = velocity b
           /\ mass b' = mass b
           /\ inertia b' = inertia b
           /\ (0 <= newVolume ->
               submergedVolume b' o'
               = newVolume
                 * Rmax 0 (1 - Vector3.y (Object3D.position o) / 2))).
Proof.
  split.
  - intros Hb. unfold setVolume, setMass. rewrite Hb.
    split; [reflexivity | eexists; reflexivity].
  - intros o Hb. unfold setVolume. rewrite Hb. cbn [deref bind].
    eexists _, _. split; [reflexivity |]. cbn [boat]. split; [reflexivity |].
    cbn [volume velocity mass inertia Object3D.scale Object3D.position
         Object3D.rotation Object3D.setScale].
    repeat split. intros Hk. unfold submergedVolume.
    cbn [volume Object3D.position Object3D.setScale].
    set (f := 1 - Vector3.y (Object3D.position o) / 2).
    destruct (Rle_dec 0 f) as [Hf | Hf].
    + rewrite (Rmax_right 0 f) by exact Hf. apply Rmax_right. nra.
    + rewrite (Rmax_left 0 f) by lra. rewrite Rmax_left by nra. ring.
Qed.

(** X19.  The launch.  As the callback leaves it, whatever the loaded model, the
    boat of [new Boat()] sits at (-10, -4, -10) at rest and displaces more
    water than it weighs: its first step gives it the acceleration
    (0, 4.9, 0), the velocity (0, 4.802 * deltaTime, 0) and the height
    -4 + 4.802 * deltaTime * deltaTime; it is not turned. *)
Theorem update_after_load (scene : Object3D.t) (deltaTime : R) :
  exists b' o',
    update (onLoad newBoat scene) deltaTime = Normal b'
    /\ acceleration b' = Some (Vector3.mk 0 (49 / 10) 0)
    /\ velocity b' = Some (Vector3.mk 0 (4802 / 1000 * deltaTime) 0)
    /\ boat b' = Some o'
    /\ Object3D.position o'
       = Vector3.mk (-10) (-4 + 4802 / 1000 * deltaTime * deltaTime) (-10)
    /\ Object3D.rotation o' = Object3D.rotation scene.
Proof.
  set (o := Object3D.setPosition
              (Object3D.setScale scene
                                 (Vector3.mk (2 / 10) (2 / 10) (2 / 10)))
              (Vector3.mk (-10) (-4) (-10))).
  assert (Hb : boat (onLoad newBoat scene) = Some o) by reflexivity.
  rewrite (@ThrustStep.update_loaded
             (onLoad newBoat scene) deltaTime o
             (Vector3.mk 0 0 0) (Vector3.mk 0 0 0) Hb eq_refl eq_refl).
  assert (Hforce : totalForce (onLoad newBoat scene) o (Vector3.mk 0 0 0)
                   = Vector3.mk 0 14700 0).
  { unfold totalForce, submergedVolume.
    change (thrust (onLoad newBoat scene)) with 0.
    rewrite ThrustStep.no_thrust_no_force, ThrustStep.length_of_zero.
    cbn [onLoad newBoat volume mass waterDensity o Object3D.position
         Object3D.setPosition Vector3.y].
    rewrite Rmax_right by lra.
    unfold Vector3.add, Vector3.multiplyScalar, Vector3.clone, Vector3.zero, g.
    cbn [Vector3.x Vector3.y Vector3.z]. f_equal; field. }
  rewrite Hforce.
  assert (Hacc : Vector3.divideScalar (Vector3.mk 0 14700 0)
                                      (mass (onLoad newBoat scene))
                 = Vector3.mk 0 (49 / 10) 0).
  { unfold Vector3.divideScalar, Vector3.multiplyScalar.
    cbn [Vector3.x Vector3.y Vector3.z onLoad newBoat mass]. f_equal; field. }
  rewrite Hacc.
  assert (Hvel : steppedVelocity (onLoad newBoat scene)
                                 (Vector3.mk 0 (49 / 10) 0)
                                 (Vector3.mk 0 0 0) deltaTime
                 = Vector3.mk 0 (4802 / 1000 * deltaTime) 0).
  { unfold steppedVelocity. change (thrust (onLoad newBoat scene)) with 0.
    destruct (Reqb 0 0) eqn:E; [| apply Reqb_false in E; lra].
    unfold Vector3.add, Vector3.multiplyScalar, Vector3.clone, linearDamping.
    cbn [Vector3.x Vector3.y Vector3.z]. f_equal; field. }
  rewrite Hvel.
  assert (Hpos : steppedPosition o (Vector3.mk 0 (4802 / 1000 * deltaTime) 0)
                                 deltaTime
                 = Vector3.mk (-10)
                              (-4 + 4802 / 1000 * deltaTime * deltaTime)
                              (-10)).
  { unfold steppedPosition, Vector3.add, Vector3.multiplyScalar, Vector3.clone.
    cbn [Vector3.x Vector3.y Vector3.z o Object3D.position
         Object3D.setPosition].
    f_equal; ring. }
  rewrite Hpos.
  match goal with
  | |- context [floorClamp ?p ?q] =>
      destruct (Buoyancy.floorClamp_floor p q) as (_ & _ & Hkeep)
  end.
  rewrite Hkeep by (cbn [Vector3.y]; nra). cbn [fst snd].
  eexists _, _. split; [reflexivity |].
  cbn [acceleration velocity boat]. repeat split.
  cbn [Object3D.rotation Object3D.setRotationY Object3D.setPosition
       Object3D.setScale o onLoad newBoat angularVelocity thrust
       rotationSpeed inertia].
  destruct (Object3D.rotation scene) as [rx ry rz].
  unfold Euler.setY, angularDampingFactor.
  cbn [Euler.x Euler.y Euler.z]. f_equal. unfold Rdiv. ring.
Qed.

End Scene.

(** * On doubles *)

(** ** Comparisons and zeros of binary64 *)

Module DoubleFacts.

Import PrimFloat FloatOps FloatAxioms SpecFloat.
#[local] Open Scope float_scope.

Lemma floor_value : Prim2SF (-4) = S754_finite true 4503599627370496 (-50).
Proof. vm_compute. reflexivity. Qed.

Lemma is_nan_spec (y : float) : is_nan y = true <-> Prim2SF y = S754_nan.
Proof.
  unfold is_nan. rewrite FloatAxioms.eqb_spec.
  destruct (Prim2SF y) as [s | s | | s m e]; cbn.
  - split; discriminate.
  - destruct s; cbn; split; discriminate.
  - split; reflexivity.
  - unfold SFeqb, SFcompare. destruct s.
    + rewrite Z.compare_refl, Pos.compare_cont_refl. cbn. split; discriminate.
    + rewrite Z.compare_refl, Pos.compare_cont_refl. cbn. split; discriminate.
Qed.

(** A number that is not below -4 is at least -4; NaN is neither. *)
Lemma not_below_floor (y : float) :
  is_nan y = false -> (y <? -4) = false -> (-4 <=? y) = true.
Proof.
  intros Hnan Hlt.
  assert (Hn : Prim2SF y <> S754_nan).
  { intros H. apply is_nan_spec in H. congruence. }
  rewrite ltb_spec in Hlt. rewrite leb_spec. rewrite floor_value in *.
  destruct (Prim2SF y) as [s | s | | s m e].
  - reflexivity.
  - destruct s; [discriminate | reflexivity].
  - contradiction.
  - destruct s; [| reflexivity].
    remember 4503599627370496%positive as m0 eqn:Hm0. clear Hm0.
    unfold SFltb, SFleb, SFcompare in *.
    rewrite (Z.compare_antisym e (-50)).
    replace (Pos.compare_cont Eq m0 m)
      with (CompOpp (Pos.compare_cont Eq m m0))
      by (rewrite Pos.compare_cont_antisym; reflexivity).
    destruct (e ?= -50)%Z; simpl CompOpp in *; try discriminate;
      try reflexivity.
    destruct (Pos.compare_cont Eq m m0); simpl CompOpp in *;
      try discriminate; reflexivity.
Qed.

Lemma nan_compares_false (y c : float) :
  is_nan y = true -> (y <? c) = false /\ (c <=? y) = false.
Proof.
  intros H. apply is_nan_spec in H. rewrite ltb_spec, leb_spec, H.
  unfold SFltb, SFleb, SFcompare. destruct (Prim2SF c); split; reflexivity.
Qed.

Lemma eqb_zero_spec (p : float) :
  (p =? 0) = true <-> exists s, Prim2SF p = S754_zero s.
Proof.
  rewrite FloatAxioms.eqb_spec.
  replace (Prim2SF 0) with (S754_zero false) by (vm_compute; reflexivity).
  destruct (Prim2SF p) as [s | s | | s m e]; cbn.
  - split; [eauto | reflexivity].
  - destruct s; cbn; split; try discriminate; intros [s' H]; discriminate.
  - split; try discriminate; intros [s' H]; discriminate.
  - destruct s; cbn; split; try discriminate; intros [s' H]; discriminate.
Qed.


(** Half of a zero is a zero. *)
Lemma half_of_zero (x : float) : (x =? 0) = true -> (x / 2 =? 0) = true.
Proof.
  intros H. apply eqb_zero_spec in H. destruct H as [s H].
  apply eqb_zero_spec. rewrite div_spec, H.
  destruct s; vm_compute; eauto.
Qed.

End DoubleFacts.

(** ** [isAtRest] on doubles ([main.js]) *)

Module RestOnDoubles.

Import PrimFloat Binary64 Binary64.WindModel.
#[local] Open Scope float_scope.
#[local] Set Warnings "-inexact-float".

Lemma hostAtZero_right : rightAtZero hostAtZero.
Proof.
  intros x Hx. unfold hostAtZero. cbn [Math_sin Math_cos]. rewrite Hx.
  split; reflexivity.
Qed.

Lemma neutralForces_constructed :
  constructor 2000 2 1000 None None = Normal neutralForces.
Proof. reflexivity. Qed.

(** Whatever the engine's sine, as long as it is right at zero, the
    creeping neutral body counts as at rest. *)
Lemma isAtRest_creeping (h : Host) :
  rightAtZero h -> isAtRest h calm neutralForces creeping = true.
Proof.
  intros Hh. unfold isAtRest, computeNetForce, computeWindForce.
  replace (clampSailAngle (sailAngle calm)) with 0
    by (vm_compute; reflexivity).
  destruct (Hh 0 eq_refl) as [-> _].
  vm_compute. reflexivity.
Qed.



End RestOnDoubles.

(** ** The floor on doubles ([unnamed/part_001]) *)

Module FloorOnDoubles.

Import PrimFloat Binary64 Binary64.ThrustModel.
#[local] Open Scope float_scope.
#[local] Set Warnings "-inexact-float".

Lemma floorClamp_cases (pos vel : Vector3.t) :
  ((Vector3.y pos <? -4) = true ->
   floorClamp pos vel = (Vector3.setY pos (-4), Vector3.setY vel 0))
  /\ ((Vector3.y pos <? -4) = false -> floorClamp pos vel = (pos, vel)).
Proof.
  unfold floorClamp. destruct (Vector3.y pos <? -4); split; intros H;
    try discriminate; reflexivity.
Qed.

(** The step of a loaded boat, field by field. *)
Lemma update_loaded_on_doubles (h : Host) (b : Boat) (deltaTime : float)
      (o : Object3D.t) (v a : Vector3.t) :
  boat b = Some o ->
  velocity b = Some v ->
  acceleration b = Some a ->
  let acc := Vector3.divideScalar (totalForce h b o v) (mass b) in
  let vel1 := steppedVelocity b acc v deltaTime in
  let pos1 := steppedPosition o vel1 deltaTime in
  exists b',
    update h b deltaTime = Normal b'
    /\ (exists ry,
           boat b'
           = Some (Object3D.setRotationY
                     (Object3D.setPosition o (fst (floorClamp pos1 vel1)))
                     ry))
    /\ velocity b' = Some (snd (floorClamp pos1 vel1)).
Proof.
  intros Hb Hv Ha acc vel1 pos1.
  unfold update. rewrite Hb, Hv, Ha. cbn [deref bind].
  fold acc. fold vel1. fold pos1.
  destruct (floorClamp pos1 vel1) as [pos2 vel2].
  eexists. split; [reflexivity |]. cbn [boat velocity fst snd].
  split; [eexists; reflexivity | reflexivity].
Qed.

(** C8, as the code has it.  A step of a loaded boat completes.  When the
    height the step reaches is a number, the boat ends the step at or above
    the floor, -4 <= position.y; when that height is below the floor the
    boat ends on the floor with the vertical velocity zero; otherwise the
    test does not fire and position and velocity are those the step
    reached.  In particular when the height the step reaches is NaN it
    stays NaN, which is not at or above the floor. *)
Theorem update_floor_on_doubles
        (h : Host) (b : Boat) (deltaTime : float)
        (o : Object3D.t) (v a : Vector3.t) :
  boat b = Some o ->
  velocity b = Some v ->
  acceleration b = Some a ->
  let acc := Vector3.divideScalar (totalForce h b o v) (mass b) in
  let vel1 := steppedVelocity b acc v deltaTime in
  let pos1 := steppedPosition o vel1 deltaTime in
  exists b' o' v',
    update h b deltaTime = Normal b'
    /\ boat b' = Some o'
    /\ velocity b' = Some v'
    /\ (is_nan (Vector3.y pos1) = false ->
        (-4 <=? Vector3.y (Object3D.position o')) = true)
    /\ ((Vector3.y pos1 <? -4) = true ->
        Vector3.y (Object3D.position o') = -4 /\ Vector3.y v' = 0)
    /\ ((Vector3.y pos1 <? -4) = false ->
        Object3D.position o' = pos1 /\ v' = vel1)
    /\ (is_nan (Vector3.y pos1) = true ->
        Object3D.position o' = pos1
        /\ is_nan (Vector3.y (Object3D.position o')) = true
        /\ (-4 <=? Vector3.y (Object3D.position o')) = false).
Proof.
  intros Hb Hv Ha acc vel1 pos1.
  destruct (update_loaded_on_doubles h b deltaTime Hb Hv Ha)
    as (b' & Hu & [ry Hb'] & Hv').
  fold acc in Hb', Hv'. fold vel1 in Hb', Hv'. fold pos1 in Hb', Hv'.
  destruct (floorClamp_cases pos1 vel1) as [Hfire Hkeep].
  eexists b', _, _. split; [exact Hu |]. split; [exact Hb' |].
  split; [exact Hv' |].
  cbn [Object3D.position Object3D.setRotationY Object3D.setPosition].
  assert (Hlow : (Vector3.y pos1 <? -4) = true ->
                 Vector3.y (fst (floorClamp pos1 vel1)) = -4
                 /\ Vector3.y (snd (floorClamp pos1 vel1)) = 0).
  { intros H. rewrite (Hfire H). split; reflexivity. }
  assert (Hhigh : (Vector3.y pos1 <? -4) = false ->
                  fst (floorClamp pos1 vel1) = pos1
                  /\ snd (floorClamp pos1 vel1) = vel1).
  { intros H. rewrite (Hkeep H). split; reflexivity. }
  split; [| split; [exact Hlow | split; [exact Hhigh |]]].
  - intros Hnum. destruct (Vector3.y pos1 <? -4) eqn:E.
    + destruct (Hlow eq_refl) as [-> _]. reflexivity.
    + destruct (Hhigh eq_refl) as [-> _].
      apply DoubleFacts.not_below_floor; assumption.
  - intros Hnan.
    destruct (DoubleFacts.nan_compares_false (Vector3.y pos1) (-4) Hnan)
      as [Hlt Hle].
    destruct (Hhigh Hlt) as [-> _]. repeat split; assumption.
Qed.

Lemma update_floor_on_doubles_witness :
  exists b' o' v',
    update hostAtZero sinkingBoat 0.1 = Normal b'
    /\ boat b' = Some o'
    /\ velocity b' = Some v'
    /\ Vector3.y (Object3D.position o') = -4
    /\ Vector3.y v' = 0
    /\ (-4 <=? Vector3.y (Object3D.position o')) = true.
Proof.
  destruct (@update_floor_on_doubles
              hostAtZero sinkingBoat 0.1 loadedNode
              (Vector3.mk 0 (-100) 0) (Vector3.mk 0 0 0)
              eq_refl eq_refl eq_refl)
    as (b' & o' & v' & Hu & Hb & Hv & Hnum & Hlow & _).
  exists b', o', v'. split; [exact Hu |]. split; [exact Hb |].
  split; [exact Hv |].
  destruct Hlow as [Hy Hvy]; [vm_compute; reflexivity |].
  split; [exact Hy |]. split; [exact Hvy |].
  apply Hnum. vm_compute. reflexivity.
Defined.

(** The sliders lead from the loaded boat to the tuned one. *)
Lemma tunedBoat_reached :
  (b <- setMass loadedBoat 500 ;;
   b <- setVolume b 5 ;;
   Normal (setThrust b 500)) = Normal tunedBoat.
Proof. vm_compute. reflexivity. Qed.

(** The late frames leave the tuned boat at the height NaN, which is not at
    or above the floor: the speed has overflowed, the drag is NaN, and the
    floor test is false on NaN. *)
Lemma update_ends_at_NaN :
  exists b' o',
    updates hostAtZero tunedBoat lateFrames = Normal b'
    /\ boat b' = Some o'
    /\ is_nan (Vector3.y (Object3D.position o')) = true
    /\ (-4 <=? Vector3.y (Object3D.position o')) = false.
Proof. vm_compute. eexists _, _. repeat split. Qed.

(** On a [straight] boat two hosts that are right at zero give the same
    step. *)
Lemma update_any_host (h1 h2 : Host) (b : Boat) (deltaTime : float) :
  rightAtZero h1 ->
  rightAtZero h2 ->
  straight b = true ->
  update h1 b deltaTime = update h2 b deltaTime.
Proof.
  intros H1 H2 Hs. unfold straight in Hs.
  destruct (boat b) as [o |] eqn:Hb; [| discriminate].
  apply andb_true_iff in Hs. destruct Hs as [Hs Hr].
  apply andb_true_iff in Hs. destruct Hs as [Hs Hz].
  apply andb_true_iff in Hs. destruct Hs as [Hx Hy].
  apply DoubleFacts.half_of_zero in Hx, Hy, Hz.
  destruct (H1 _ Hx) as [S1x C1x]. destruct (H1 _ Hy) as [S1y C1y].
  destruct (H1 _ Hz) as [S1z C1z]. destruct (H1 _ Hr) as [S1r _].
  destruct (H2 _ Hx) as [S2x C2x]. destruct (H2 _ Hy) as [S2y C2y].
  destruct (H2 _ Hz) as [S2z C2z]. destruct (H2 _ Hr) as [S2r _].
  unfold update, totalForce, Object3D.quaternion, Quaternion.setFromEuler.
  rewrite Hb.
  destruct (velocity b) as [v |]; [| reflexivity].
  destruct (acceleration b) as [a |]; [| reflexivity].
  cbn [deref bind].
  rewrite S1x, C1x, S1y, C1y, S1z, C1z, S1r.
  rewrite S2x, C2x, S2y, C2y, S2z, C2z, S2r.
  reflexivity.
Qed.

Lemma updates_any_host (h : Host) :
  rightAtZero h ->
  forall (deltaTimes : list float) (b : Boat),
    straightRun b deltaTimes = true ->
    updates h b deltaTimes = updates hostAtZero b deltaTimes.
Proof.
  intros Hh deltaTimes.
  induction deltaTimes as [| d rest IH]; intros b Hrun.
  - reflexivity.
  - cbn [straightRun] in Hrun. apply andb_true_iff in Hrun.
    destruct Hrun as [Hs Hrest]. cbn [updates].
    rewrite (update_any_host b d Hh RestOnDoubles.hostAtZero_right Hs).
    destruct (update hostAtZero b d) as [b' | e]; [| discriminate].
    cbn [bind]. apply IH. exact Hrest.
Qed.

(** The same end with the sine and cosine of any engine that is right at
    zero: the boat is never turned, so nothing else is asked of them. *)
Lemma update_ends_at_NaN_any_host (h : Host) :
  rightAtZero h ->
  exists b' o',
    updates h tunedBoat lateFrames = Normal b'
    /\ boat b' = Some o'
    /\ is_nan (Vector3.y (Object3D.position o')) = true
    /\ (-4 <=? Vector3.y (Object3D.position o')) = false.
Proof.
  intros Hh. rewrite (updates_any_host Hh).
  - vm_compute. eexists _, _. repeat split.
  - vm_compute. reflexivity.
Qed.

End FloorOnDoubles.
